(** * MijiaTemp: the gatttool poller of iw-ble

  A shallow embedding of [src/modules/mijia-temp/mijia-temp.ts]: the
  service that spawns [gatttool] on a timer, reads the notification
  lines it prints, publishes the decoded reading to a deepstream record
  and retries after abnormal exits.

  The class is single threaded: every callback (interval tick, retry
  timeout, child-process event, readline line, [stop()]) runs to
  completion on the Node event loop.  The embedding therefore has one
  state, [Session], holding the fields of the object together with the
  part of the outside world the callbacks act on (child processes,
  pending timeouts, the record), and one function per method and per
  listener.  Logging is left out. *)

From Stdlib Require Import String Ascii ZArith QArith List Lia.
From stdpp Require Import base list strings pretty.

Local Open Scope string_scope.
Local Open Scope Z_scope.

(** ** Strings

  A line is a [string]: one [ascii] per UTF-16 code unit below 256,
  which covers everything gatttool prints. *)
Module JsString.

(** [WhiteSpace] and [LineTerminator] code units below 256, the ones
    [String.prototype.trim] and [StringToNumber] strip. *)
Definition isWhiteSpace (c : ascii) : bool :=
  let n := N_of_ascii c in
  ((9 <=? n) && (n <=? 13) || (n =? 32) || (n =? 160))%N.

Definition isEmpty (s : string) : bool :=
  match s with EmptyString => true | String _ _ => false end.

Fixpoint trimStart (s : string) : string :=
  match s with
  | EmptyString => EmptyString
  | String c r => if isWhiteSpace c then trimStart r else s
  end.

Fixpoint trimEnd (s : string) : string :=
  match s with
  | EmptyString => EmptyString
  | String c r =>
      let r' := trimEnd r in
      if isWhiteSpace c && isEmpty r' then EmptyString else String c r'
  end.

(** [s.trim()] *)
Definition trim (s : string) : string := trimEnd (trimStart s).

(** [s.indexOf(pat)]: position of the first occurrence, or -1. *)
Definition indexOf (s pat : string) : Z :=
  match index 0 pat s with
  | Some i => Z.of_nat i
  | None => -1
  end.

Fixpoint drop (n : nat) (s : string) : string :=
  match n, s with
  | O, _ => s
  | S _, EmptyString => EmptyString
  | S n', String _ r => drop n' r
  end.

(** [s.substring(start)]: a negative start counts as 0, a start past
    the end gives the empty string. *)
Definition substring (s : string) (start : Z) : string :=
  drop (Z.to_nat start) s.

(** [s.split(sep)] for a separator of one code unit: never an empty
    array, and two adjacent separators give an empty token. *)
Fixpoint split (sep : ascii) (s : string) : list string :=
  match s with
  | EmptyString => [EmptyString]
  | String c r =>
      if Ascii.eqb c sep then EmptyString :: split sep r
      else match split sep r with
           | t :: ts => String c t :: ts
           | [] => [String c EmptyString]
           end
  end.

(** A substitution [${v}] of a template literal: [undefined] prints as
    the word. *)
Definition subst (v : option string) : string :=
  match v with
  | Some s => s
  | None => "undefined"
  end.

End JsString.

(** ** Numbers

  A Number is modelled by the rational it stands for, and [NaN].  The
  handler only builds Numbers from hexadecimal literals and divides by
  100; where the quotient is not a binary fraction the JavaScript value
  is the double nearest to the rational kept here. *)
Module JsNumber.

Inductive number : Type :=
| NaN
| Num (q : Q).

Definition hexDigit (c : ascii) : option Z :=
  let n := Z.of_N (N_of_ascii c) in
  if (48 <=? n) && (n <=? 57) then Some (n - 48)
  else if (97 <=? n) && (n <=? 102) then Some (n - 87)
  else if (65 <=? n) && (n <=? 70) then Some (n - 55)
  else None.

Fixpoint hexValue (acc : Z) (s : string) : option Z :=
  match s with
  | EmptyString => Some acc
  | String c r =>
      match hexDigit c with
      | Some d => hexValue (16 * acc + d) r
      | None => None
      end
  end.

(** Unary [+] on a string that begins with [0x], the only strings the
    line handler converts.  [StringToNumber] strips white space at both
    ends; what is left must be [0x] (or [0X]) followed by one or more
    hexadecimal digits, since no other numeric literal contains an [x].
    Anything else is [NaN]. *)
Definition toNumber (s : string) : number :=
  match JsString.trim s with
  | String "0" (String x (String d ds)) =>
      if Ascii.eqb x "x" || Ascii.eqb x "X" then
        match hexValue 0 (String d ds) with
        | Some v => Num (inject_Z v)
        | None => NaN
        end
      else NaN
  | _ => NaN
  end.

(** [x / d] for a non-zero integer constant [d]. *)
Definition div (x : number) (d : Z) : number :=
  match x with
  | NaN => NaN
  | Num q => Num (q / inject_Z d)
  end.

End JsNumber.

Import JsString JsNumber.

(** ** The service state *)

Definition RETRY_TIMEOUT : Z := 5000.
Definition MAX_RETRY : nat := 10.

(** Modelled from the spec: the enum [State] of [iw-base/lib/registry],
    which is imported by the source and not part of it.  The spec lists
    its five values. *)
Inductive State : Type := OK | BUSY | PROBLEM | ERROR | INACTIVE.

Module MijiaTempConfig.
Record t : Type := mk {
  macAddress : string;
  recordName : string;
  interval : option Z;
  gatttool : option string
}.
End MijiaTempConfig.

(** The object handed to [record.set]. *)
Record Reading : Type := mkReading {
  temperature : number;
  humidity : number;
  time : string
}.

(** A spawned [gatttool], with the closure of the [update()] call that
    spawned it ([lineCounter], [input]) and the listeners it carries. *)
Record ChildProcess : Type := mkChild {
  file : string;
  argv : list string;
  lineCounter : nat;
  inputOpen : bool;   (* [input.close()] not yet called: lines are delivered *)
  exited : bool;      (* the 'exit' event has fired *)
  kills : nat;        (* [kill('SIGINT')] calls received *)
  closers : nat       (* pending [once('exit')] listeners of [closeChildProcess] *)
}.

(** Processes are named by the order in which they were spawned. *)
Abbreviation pid := nat (only parsing).

Record Session : Type := mkSession {
  (* fields of the object *)
  record : option string;
  macAddress : string;
  interval : Z;
  gatttool : string;
  timer : option Z;            (* the live [setInterval], with its period *)
  retryCounter : nat;
  gattProcess : option pid;
  (* [Service.setState(state, message?)] *)
  state : State * option string;
  (* the world the callbacks act on *)
  children : list ChildProcess;    (* every process spawned so far, by pid *)
  timeouts : list Z;               (* pending [setTimeout(() => this.update(), d)] *)
  published : list Reading;        (* [record.set] calls, oldest first; the last one is the value *)
  discarded : nat;                 (* [record.discard] calls *)
  closed : nat                     (* resolved [closeChildProcess] promises *)
}.

Definition set_record v s :=
  mkSession v (macAddress s) (interval s) (gatttool s) (timer s) (retryCounter s)
    (gattProcess s) (state s) (children s) (timeouts s) (published s) (discarded s) (closed s).
Definition set_macAddress v s :=
  mkSession (record s) v (interval s) (gatttool s) (timer s) (retryCounter s)
    (gattProcess s) (state s) (children s) (timeouts s) (published s) (discarded s) (closed s).
Definition set_interval v s :=
  mkSession (record s) (macAddress s) v (gatttool s) (timer s) (retryCounter s)
    (gattProcess s) (state s) (children s) (timeouts s) (published s) (discarded s) (closed s).
Definition set_gatttool v s :=
  mkSession (record s) (macAddress s) (interval s) v (timer s) (retryCounter s)
    (gattProcess s) (state s) (children s) (timeouts s) (published s) (discarded s) (closed s).
Definition set_timer v s :=
  mkSession (record s) (macAddress s) (interval s) (gatttool s) v (retryCounter s)
    (gattProcess s) (state s) (children s) (timeouts s) (published s) (discarded s) (closed s).
Definition set_retryCounter v s :=
  mkSession (record s) (macAddress s) (interval s) (gatttool s) (timer s) v
    (gattProcess s) (state s) (children s) (timeouts s) (published s) (discarded s) (closed s).
Definition set_gattProcess v s :=
  mkSession (record s) (macAddress s) (interval s) (gatttool s) (timer s) (retryCounter s)
    v (state s) (children s) (timeouts s) (published s) (discarded s) (closed s).
(** Modelled from the spec: [setState] of the base class [Service] of
    [iw-base], the health setter that takes a state and an optional
    message. *)
Definition setState (st : State) (message : option string) s :=
  mkSession (record s) (macAddress s) (interval s) (gatttool s) (timer s) (retryCounter s)
    (gattProcess s) (st, message) (children s) (timeouts s) (published s) (discarded s) (closed s).
Definition set_children v s :=
  mkSession (record s) (macAddress s) (interval s) (gatttool s) (timer s) (retryCounter s)
    (gattProcess s) (state s) v (timeouts s) (published s) (discarded s) (closed s).
Definition set_timeouts v s :=
  mkSession (record s) (macAddress s) (interval s) (gatttool s) (timer s) (retryCounter s)
    (gattProcess s) (state s) (children s) v (published s) (discarded s) (closed s).
Definition set_published v s :=
  mkSession (record s) (macAddress s) (interval s) (gatttool s) (timer s) (retryCounter s)
    (gattProcess s) (state s) (children s) (timeouts s) v (discarded s) (closed s).
Definition set_discarded v s :=
  mkSession (record s) (macAddress s) (interval s) (gatttool s) (timer s) (retryCounter s)
    (gattProcess s) (state s) (children s) (timeouts s) (published s) v (closed s).
Definition set_closed v s :=
  mkSession (record s) (macAddress s) (interval s) (gatttool s) (timer s) (retryCounter s)
    (gattProcess s) (state s) (children s) (timeouts s) (published s) (discarded s) v.

(** Updates of one child, by pid. *)
Definition on_child (f : ChildProcess -> ChildProcess) (p : pid) (s : Session) : Session :=
  set_children (alter f p (children s)) s.

Definition bump_lineCounter (c : ChildProcess) : ChildProcess :=
  mkChild (file c) (argv c) (S (lineCounter c)) (inputOpen c) (exited c) (kills c) (closers c).
Definition close_input (c : ChildProcess) : ChildProcess :=
  mkChild (file c) (argv c) (lineCounter c) false (exited c) (kills c) (closers c).
Definition once_exit_and_kill (c : ChildProcess) : ChildProcess :=
  mkChild (file c) (argv c) (lineCounter c) (inputOpen c) (exited c) (S (kills c)) (S (closers c)).
Definition mark_exited (c : ChildProcess) : ChildProcess :=
  mkChild (file c) (argv c) (lineCounter c) (inputOpen c) true (kills c) 0.

(** ** The methods *)

(** [closeChildProcess()]: with a process in the slot, register a
    [once('exit')] listener that will clear the slot and resolve, and
    send SIGINT; with none, resolve at once. *)
Definition closeChildProcess (s : Session) : Session :=
  match gattProcess s with
  | Some p => on_child once_exit_and_kill p s
  | None => set_closed (S (closed s)) s
  end.

(** The process [spawn(this.gatttool, argv, ...)] starts, with the three
    listeners attached and a new [lineCounter]. *)
Definition newChild (s : Session) : ChildProcess :=
  let args := ["--char-write-req"; "-b"; macAddress s; "-a"; "0x0038"; "-n"; "0100"; "--listen"] in
  mkChild (gatttool s) args 0 true false 0 0.

(** [this.gattProcess = spawn(...)]: the new handle goes into the slot,
    whatever the slot held.  Node's [spawn] throws at once on an empty
    path or on an argument that holds a NUL; the embedding is of the
    sessions whose tool path and address it accepts. *)
Definition spawn (s : Session) : Session :=
  set_gattProcess (Some (length (children s))) (set_children (children s ++ [newChild s]) s).

Definition update (s : Session) : Session :=
  if Nat.eqb (retryCounter s) 0 then
    spawn (setState BUSY (Some "updating values ...") s)
  else if Nat.leb MAX_RETRY (retryCounter s) then
    set_retryCounter 0 (setState PROBLEM (Some "unable to connect to device") s)
  else
    spawn (setState BUSY
             (Some ("updating values (retry " ++ pretty (retryCounter s) ++ ") ...")) s).

(** The object as the constructor leaves it: [retryCounter = 0], every
    other field unset. *)
Definition newMijiaTemp : Session :=
  mkSession None "" 0 "" None 0 None (INACTIVE, None) [] [] [] 0 0.

(** [start(config)].  [timer] keeps the period handed to [setInterval];
    Node runs the interval with that period when it lies between 1 ms
    and 2^31 - 1 ms, and with 1 ms otherwise. *)
Definition start (config : MijiaTempConfig.t) (s : Session) : Session :=
  let s1 := set_macAddress (MijiaTempConfig.macAddress config) s in
  let s2 := set_interval (default 300 (MijiaTempConfig.interval config) * 1000) s1 in
  let s3 := set_gatttool (default "/usr/bin/gatttool" (MijiaTempConfig.gatttool config)) s2 in
  let s4 := set_record (Some (MijiaTempConfig.recordName config)) s3 in
  let s5 := set_timer (Some (interval s4)) s4 in
  let s6 := setState OK None s5 in
  update s6.

(** [stop()].  The body has no [await]: the promise of
    [closeChildProcess()] is dropped, and the promise of [stop()] itself
    resolves with the state this function returns. *)
Definition stop (s : Session) : Session :=
  let s1 := set_timer None s in
  let s2 := closeChildProcess s1 in
  let s3 := match record s2 with
            | Some _ => set_discarded (S (discarded s2)) s2
            | None => s2
            end in
  setState INACTIVE None s3.

(** The ['error'] listener of the process [p]. *)
Definition onError (p : pid) (s : Session) : Session :=
  let s1 := on_child close_input p s in
  let s2 := set_gattProcess None s1 in
  setState ERROR (Some "unable to launch gatttool process") s2.

(** The exit code of the ['exit'] event: [null] when a signal killed the
    process. *)
Definition isCleanExit (code : option Z) : bool :=
  match code with
  | Some c => (c =? 0) || (c =? 130)
  | None => false
  end.

(** The ['exit'] listener of the process [p], followed by the
    [once('exit')] listeners that [closeChildProcess] has added to it. *)
Definition onExit (p : pid) (code : option Z) (s : Session) : Session :=
  let s1 := on_child close_input p s in
  let s2 := set_gattProcess None s1 in
  let s3 := if isCleanExit code then setState OK None (set_retryCounter 0 s2)
            else set_timeouts (timeouts s2 ++ [RETRY_TIMEOUT])
                   (set_retryCounter (S (retryCounter s2)) s2) in
  let n := from_option closers 0%nat (children s3 !! p) in
  let s4 := if Nat.eqb n 0 then s3
            else set_closed (closed s3 + n)%nat (set_gattProcess None s3) in
  on_child mark_exited p s4.

(** The tokens of a data line:
    [line.substring(line.indexOf('value:') + 6).trim().split(' ')]. *)
Definition tokens (line : string) : list string :=
  split " " (trim (substring line (indexOf line "value:" + 6))).

(** The reading a data line decodes to. *)
Definition decode (line now : string) : Reading :=
  let values := tokens line in
  let temp := JsNumber.div (toNumber ("0x" ++ subst (values !! 1%nat) ++ subst (values !! 0%nat))) 100 in
  let humid := toNumber ("0x" ++ subst (values !! 2%nat)) in
  mkReading temp humid now.

(** The [lineCounter] in the closure of the process [p] (0 when there
    is no such process). *)
Definition lineCounterOf (p : pid) (s : Session) : nat :=
  from_option lineCounter 0%nat (children s !! p).

(** How a callback ends: normally, or with an exception nobody catches. *)
Inductive Completion : Type :=
| Normal (s : Session)
| Throw (e : string).

(** The ['line'] listener of the process [p]; [now] is
    [new Date().toISOString()].  [this.record.set] is the one member
    access that can fail, on an object whose [record] is not set. *)
Definition onLine (p : pid) (line now : string) (s : Session) : Completion :=
  if Nat.eqb (lineCounterOf p s) 0 then
    Normal (on_child bump_lineCounter p s)
  else
    match record s with
    | None => Throw "TypeError: Cannot read properties of undefined (reading 'set')"
    | Some _ =>
        let s1 := set_published (published s ++ [decode line now]) s in
        Normal (closeChildProcess s1)
    end.

(** ** The event loop

    What the Node event loop can dispatch to the object.  [Tick] is the
    [setInterval] callback, [Retry i] the [i]-th pending [setTimeout]
    callback; the three process events carry the pid of the process whose
    listener runs. *)
Inductive Event : Type :=
| Tick
| Retry (i : nat)
| ProcError (p : pid)
| ProcExit (p : pid) (code : option Z)
| Line (p : pid) (line now : string)
| Stop.

(** Whether the loop can dispatch the event: the interval is live, the
    timeout is pending, the process has not exited, the readline
    interface is open. *)
Definition enabled (s : Session) (e : Event) : bool :=
  match e with
  | Tick => bool_decide (is_Some (timer s))
  | Retry i => bool_decide (is_Some (timeouts s !! i))
  | ProcError p | ProcExit p _ =>
      from_option (fun c => negb (exited c)) false (children s !! p)
  | Line p _ _ =>
      from_option (fun c => inputOpen c && negb (exited c)) false (children s !! p)
  | Stop => true
  end.

Definition handle (s : Session) (e : Event) : Completion :=
  match e with
  | Tick => Normal (update s)
  | Retry i => Normal (update (set_timeouts (delete i (timeouts s)) s))
  | ProcError p => Normal (onError p s)
  | ProcExit p code => Normal (onExit p code s)
  | Line p line now => onLine p line now s
  | Stop => Normal (stop s)
  end.

(** One turn of the loop; [None] when the event cannot happen or its
    callback throws. *)
Definition step (s : Session) (e : Event) : option Session :=
  if enabled s e then
    match handle s e with
    | Normal s' => Some s'
    | Throw _ => None
    end
  else None.

Fixpoint run (s : Session) (es : list Event) : option Session :=
  match es with
  | [] => Some s
  | e :: es' =>
      match step s e with
      | Some s' => run s' es'
      | None => None
      end
  end.

(** The states of a started session. *)
Definition reachable (config : MijiaTempConfig.t) (s : Session) : Prop :=
  exists es, run (start config newMijiaTemp) es = Some s.

(** Processes spawned and not yet exited. *)
Definition live (s : Session) : list ChildProcess :=
  filter (fun c => exited c = false) (children s).

(** ** Vocabulary of the specification *)


(** A line of [p] is a data line when it is not the first one [p]'s
    listener sees. *)
Definition pastFirstLine (p : pid) (s : Session) : Prop :=
  lineCounterOf p s <> 0%nat.

(** The [Line] events that deliver the given lines of [p]. *)
Definition deliver (p : pid) (lines : list (string * string)) : list Event :=
  map (fun ln => Line p (fst ln) (snd ln)) lines.

(** No line of [p] among the events. *)
Definition noLineOf (p : pid) (es : list Event) : Prop :=
  forall line now, ~ In (Line p line now) es.

(** At most one subprocess in flight. *)
Definition oneLiveProcess (s : Session) : Prop :=
  (length (live s) <= 1)%nat.

(** A turn of the loop that spawns finds the slot empty. *)
Definition spawnsOnlyWhenIdle (s : Session) : Prop :=
  forall e s', step s e = Some s' ->
    (length (children s) < length (children s'))%nat -> gattProcess s = None.

(** What the slot does satisfy: when set, it names the process spawned
    last, and that process has not exited. *)
Definition slotIsLatestLive (s : Session) : Prop :=
  forall p, gattProcess s = Some p ->
    S p = length (children s) /\
    exists c, children s !! p = Some c /\ exited c = false.

Definition sampleConfig : MijiaTempConfig.t :=
  MijiaTempConfig.mk "4C:65:A8:D0:11:22" "sensors/livingroom" None None.

Definition sampleLine : string :=
  "Notification handle = 0x000e value: 8e 01 3c".

Definition sampleTime : string := "2019-02-03T10:00:00.000Z".

(** A started session whose process has printed its first line. *)
Definition afterHeader : Session :=
  on_child bump_lineCounter 0 (start sampleConfig newMijiaTemp).

(** Ten attempts in a row that end with exit code 1: the first process,
    then nine retries, each spawned by the timeout of the one before. *)
Definition tenFailures : list Event :=
  ProcExit 0 (Some 1) ::
  flat_map (fun p => [Retry 0; ProcExit p (Some 1)]) (seq 1 9).

(** A line without the [value:] marker, as gatttool prints when the
    connection fails. *)
Definition malformedLine : string := "connect error: Host is down (112)".

(** The session after [start] and one tick of the interval while the
    first process is still running. *)
Definition afterTick : Session := update (start sampleConfig newMijiaTemp).

(** The output of one process: the echo line, then two notifications. *)
Definition sampleOutput : list (string * string) :=
  [("Characteristic value was written successfully", "2019-02-03T10:00:00.000Z");
   ("Notification handle = 0x000e value: 8e 01 3c", "2019-02-03T10:00:01.000Z");
   ("Notification handle = 0x000e value: 90 01 3b", "2019-02-03T10:00:02.000Z")].

Definition afterTenFailures : Session :=
  default newMijiaTemp (run (start sampleConfig newMijiaTemp) tenFailures).

(** ** Scenarios and counters *)

(** Whether the code unit [c] occurs in [s]. *)
Fixpoint hasChar (c : ascii) (s : string) : bool :=
  match s with
  | EmptyString => false
  | String a r => Ascii.eqb a c || hasChar c r
  end.

(** A run of failed attempts without overlap: the process in the slot,
    [p], exits with the first code and the retry timeout fires, then the
    same for the process spawned by that retry, and so on. *)
Fixpoint failures (p : pid) (codes : list (option Z)) : list Event :=
  match codes with
  | [] => []
  | code :: codes' => ProcExit p code :: Retry 0 :: failures (S p) codes'
  end.

Definition isLine (e : Event) : bool :=
  match e with Line _ _ _ => true | _ => false end.

(** The events that call [update()]. *)
Definition callsUpdate (e : Event) : bool :=
  match e with Tick | Retry _ => true | _ => false end.

Definition countLines (es : list Event) : nat := length (filter (fun e => isLine e = true) es).

Definition countUpdates (es : list Event) : nat :=
  length (filter (fun e => callsUpdate e = true) es).

(** [stop()] called [n] times in a row. *)
Definition stopTimes (n : nat) (s : Session) : Session := Nat.iter n stop s.

(** A reading of a sensor below zero: -1.00 degrees is 0xff9c. *)
Definition frostLine : string := "Notification handle = 0x000e value: 9c ff 3c".

(** The session has spawned processes one after the other only: the
    last one, [p], is in the slot and running, every earlier one has
    exited, and no retry is pending. *)
Definition soleProcess (p : pid) (s : Session) : Prop :=
  gattProcess s = Some p /\
  S p = length (children s) /\
  (exists c, children s !! p = Some c /\ exited c = false /\
             inputOpen c = true /\ closers c = 0%nat) /\
  (forall q c, children s !! q = Some c -> q <> p -> exited c = true) /\
  timeouts s = [].

(** Health while the [n]-th retry runs. *)
Definition retryMessage (n : nat) : string :=
  "updating values (retry " ++ pretty n ++ ") ...".

(** The session after [start], a tick that spawns a second process,
    and the first line of the first process. *)
Definition overlapping : Session := on_child bump_lineCounter 0 afterTick.

(** The same after the second process has exited with code 1: the slot
    is empty while the first process still runs. *)
Definition staleSlot : Session := onExit 1 (Some 1) overlapping.

(** What holds of every process a session started with [config] has
    spawned: it runs the configured tool on the configured address, its
    [lineCounter] is 0 or 1, and once it has exited its readline
    interface is closed and no [once('exit')] listener is left on it. *)
Definition childOk (config : MijiaTempConfig.t) (c : ChildProcess) : Prop :=
  file c = default "/usr/bin/gatttool" (MijiaTempConfig.gatttool config) /\
  argv c = ["--char-write-req"; "-b"; MijiaTempConfig.macAddress config;
            "-a"; "0x0038"; "-n"; "0100"; "--listen"] /\
  (lineCounter c <= 1)%nat /\
  (exited c = true -> inputOpen c = false /\ closers c = 0%nat).

(** The settings [start] derives from the configuration. *)
Definition configured (config : MijiaTempConfig.t) (s : Session) : Prop :=
  macAddress s = MijiaTempConfig.macAddress config /\
  gatttool s = default "/usr/bin/gatttool" (MijiaTempConfig.gatttool config) /\
  interval s = default 300 (MijiaTempConfig.interval config) * 1000.

(** ** Further vocabulary of the specification *)


(** A line whose failure stays with the line: the handler returns, and
    neither the record nor any process has been touched. *)
Definition lineContained (p : pid) (line now : string) (s : Session) : Prop :=
  exists s', onLine p line now s = Normal s' /\
             published s' = published s /\ children s' = children s.

(** From [s] on, the first turn of the loop that spawns a process is a
    tick of the interval. *)
Definition nextAttemptOnlyAtTick (s : Session) : Prop :=
  forall es s1 e s2,
    run s es = Some s1 ->
    length (children s1) = length (children s) ->
    step s1 e = Some s2 ->
    (length (children s1) < length (children s2))%nat ->
    e = Tick.

(** No process exits during these events. *)
Definition noExitIn (es : list Event) : Prop :=
  forall q code, ~ In (ProcExit q code) es.

(** From [s] on, as long as no process exits, every turn of the loop
    that spawns a process is a tick of the interval. *)
Definition attemptsOnlyAtTickUntilExit (s : Session) : Prop :=
  forall es s1 e s2,
    run s es = Some s1 -> noExitIn es ->
    step s1 e = Some s2 ->
    (length (children s1) < length (children s2))%nat ->
    e = Tick.

(** Every data line asks for the termination of the process that
    printed it. *)
Definition ownTerminationRequests (config : MijiaTempConfig.t) : Prop :=
  forall s p c lines s' c',
    reachable config s ->
    children s !! p = Some c -> pastFirstLine p s ->
    run s (deliver p lines) = Some s' ->
    children s' !! p = Some c' ->
    kills c' = (kills c + length lines)%nat.

(** The first process has failed and its retry is pending when a tick
    of the interval spawns the second one. *)
Definition pendingRetry : Session :=
  default newMijiaTemp (run (start sampleConfig newMijiaTemp) [ProcExit 0 (Some 1); Tick]).

(** The state in which the retry timeout after the tenth failure enters
    [update()]: the timeout is spent, the counter is at [MAX_RETRY]. *)
Definition tenthRetry : Session :=
  set_timeouts (delete 0%nat (timeouts afterTenFailures)) afterTenFailures.


(** A token that is no hexadecimal number for [StringToNumber]: empty
    once the trailing white space is gone, or with a code unit that is
    no hexadecimal digit. *)
Definition notHex (t : string) : Prop :=
  trimEnd t = EmptyString \/ hexValue 0 (trimEnd t) = None.

(** A malformed data line, in the words of the spec: no [value:]
    marker, fewer than three tokens, or one of the three tokens not
    hexadecimal. *)
Definition malformed (line : string) : Prop :=
  indexOf line "value:" = -1 \/
  (length (tokens line) < 3)%nat \/
  exists i t, (i < 3)%nat /\ tokens line !! i = Some t /\ notHex t.

(** The two notifications of [sampleOutput]. *)
Definition sampleReadings : list (string * string) :=
  [("Notification handle = 0x000e value: 8e 01 3c", "2019-02-03T10:00:01.000Z");
   ("Notification handle = 0x000e value: 90 01 3b", "2019-02-03T10:00:02.000Z")].

(* ================================================================== *)
(** * Theorems *)

Section Decoding.

Lemma hexDigit_range c d : hexDigit c = Some d -> 0 <= d < 16.
Proof.
  unfold hexDigit. intros H.
  repeat (case_match; simplify_eq); lia.
Qed.






(** What the handler makes of some lines. *)

Example tokens_sampleLine : tokens sampleLine = ["8e"; "01"; "3c"].
Proof. by vm_compute. Qed.

Example decode_sampleLine :
  decode sampleLine sampleTime = mkReading (Num 3.98) (Num (inject_Z 60)) sampleTime.
Proof. by vm_compute. Qed.

(** Without the marker [indexOf] is -1 and the tokens are cut from
    column 5 on; none of them is hexadecimal here. *)
Example decode_without_marker :
  decode malformedLine sampleTime = mkReading NaN NaN sampleTime.
Proof. by vm_compute. Qed.

(** A missing token reads [undefined]. *)
Example decode_one_token :
  decode "value: 8e" sampleTime = mkReading NaN NaN sampleTime.
Proof. by vm_compute. Qed.

Example decode_not_hex :
  decode "value: zz 01 3c" sampleTime = mkReading NaN (Num (inject_Z 60)) sampleTime.
Proof. by vm_compute. Qed.

(** The two temperature tokens are concatenated, not shifted: tokens of
    one digit do not decode as bytes. *)
Example decode_short_tokens :
  decode "value: e 1 3c" sampleTime = mkReading (Num 0.30) (Num (inject_Z 60)) sampleTime.
Proof. by vm_compute. Qed.

End Decoding.

Section Handlers.

Lemma published_closeChildProcess s : published (closeChildProcess s) = published s.
Proof. unfold closeChildProcess. destruct (gattProcess s); reflexivity. Qed.

(** C2. When a subprocess exits, the slot is cleared in both branches
    and the interval timer is left alone.  With exit code 0 or 130 the
    retry counter becomes 0 and health OK, whatever the counter was and
    whether or not a line was parsed; with any other code (or none) the
    counter grows by exactly one and one call of [update] is scheduled
    5000 ms later. *)
Theorem C2_exit_resets_or_schedules_retry
    (p : pid) (code : option Z) (s : Session) :
  let s' := onExit p code s in
  gattProcess s' = None /\
  timer s' = timer s /\
  (((code = Some 0 \/ code = Some 130) /\
    retryCounter s' = 0%nat /\ state s' = (OK, None) /\
    timeouts s' = timeouts s)
   \/
   ((code <> Some 0 /\ code <> Some 130) /\
    retryCounter s' = S (retryCounter s) /\
    timeouts s' = (timeouts s ++ [5000])%list /\
    state s' = state s)).
Proof.
  assert (Hcode : if isCleanExit code
                  then code = Some 0 \/ code = Some 130
                  else code <> Some 0 /\ code <> Some 130).
  { destruct code as [c |]; simpl; [| split; discriminate].
    destruct (Z.eqb_spec c 0) as [-> | H0]; simpl; [by left |].
    destruct (Z.eqb_spec c 130) as [-> | H130]; simpl; [by right |].
    split; congruence. }
  unfold onExit. cbv zeta.
  destruct (isCleanExit code);
    match goal with
    | |- context [Nat.eqb ?n 0] => destruct (Nat.eqb n 0)
    end; simpl; repeat split; auto.
Qed.

End Handlers.

(** ** Invariants of the event loop *)

Section Traces.

(** Every state reached from [s] satisfies an invariant of [step] that
    holds at [s]. *)
Lemma run_invariant (P : Session -> Prop) :
  (forall s e s', step s e = Some s' -> P s -> P s') ->
  forall es s s', run s es = Some s' -> P s -> P s'.
Proof.
  intros Hstep. induction es as [| e es IH]; intros s s' Hrun HP; simpl in Hrun.
  - by simplify_eq.
  - destruct (step s e) as [s1 |] eqn:He; [| discriminate]. eauto.
Qed.

(** Case analysis on a turn of the loop: one goal per event, with the
    equation of the turn named [H]. *)
Ltac step_cases s e :=
  unfold step; destruct (enabled s e); [| discriminate];
  destruct e as [| ?i | ?q | ?q ?code | ?q ?line ?now |]; simpl; intros H; simplify_eq.

Lemma update_cases s :
  update s = set_retryCounter 0 (setState PROBLEM (Some "unable to connect to device") s) \/
  exists msg, update s = spawn (setState BUSY msg s).
Proof.
  unfold update. destruct (Nat.eqb (retryCounter s) 0); [right; eauto |].
  destruct (Nat.leb MAX_RETRY (retryCounter s)); [by left | right; eauto].
Qed.

(** *** The record is set once and for all *)

Lemma record_closeChildProcess s : record (closeChildProcess s) = record s.
Proof. unfold closeChildProcess. by destruct (gattProcess s). Qed.

Lemma record_update s : record (update s) = record s.
Proof. destruct (update_cases s) as [-> | [msg ->]]; reflexivity. Qed.

Lemma step_record s e s' : step s e = Some s' -> record s' = record s.
Proof.
  step_cases s e.
  - apply record_update.
  - by rewrite record_update.
  - reflexivity.
  - unfold onExit. cbv zeta. repeat case_match; reflexivity.
  - unfold onLine in H. repeat case_match; simplify_eq; [reflexivity |].
    by rewrite record_closeChildProcess.
  - unfold stop. cbv zeta. rewrite record_closeChildProcess. simpl.
    destruct (record s) eqn:Hr; simpl; by rewrite record_closeChildProcess.
Qed.

(** *** The slot *)

Lemma slot_ext s s' :
  gattProcess s' = gattProcess s -> children s' = children s ->
  slotIsLatestLive s -> slotIsLatestLive s'.
Proof. unfold slotIsLatestLive. intros -> ->. auto. Qed.

Lemma slot_none s : gattProcess s = None -> slotIsLatestLive s.
Proof. intros H p Hp. congruence. Qed.

Lemma slot_spawn s : slotIsLatestLive (spawn s).
Proof.
  intros p Hp. simpl in Hp. simplify_eq. simpl. split.
  - rewrite length_app. simpl. lia.
  - exists (newChild s). split; [| reflexivity].
    by rewrite list_lookup_middle.
Qed.

Lemma slot_update s : slotIsLatestLive s -> slotIsLatestLive (update s).
Proof.
  intros Hs. destruct (update_cases s) as [-> | [msg ->]].
  - by apply (slot_ext s).
  - apply slot_spawn.
Qed.

Lemma slot_on_child f q s :
  (forall c, exited (f c) = exited c) ->
  slotIsLatestLive s -> slotIsLatestLive (on_child f q s).
Proof.
  intros Hf Hs p Hp. destruct (Hs p Hp) as [Hlen (c & Hc & Hex)].
  simpl. rewrite length_alter. split; [exact Hlen |].
  rewrite list_lookup_alter. case_decide; subst.
  - rewrite Hc. simpl. eexists. split; [reflexivity |]. by rewrite Hf.
  - eauto.
Qed.

Lemma slot_closeChildProcess s :
  slotIsLatestLive s -> slotIsLatestLive (closeChildProcess s).
Proof.
  intros Hs. unfold closeChildProcess. destruct (gattProcess s) eqn:Hg.
  - by apply slot_on_child.
  - by apply (slot_ext s).
Qed.

Lemma gattProcess_onExit p code s : gattProcess (onExit p code s) = None.
Proof. unfold onExit. cbv zeta. repeat case_match; reflexivity. Qed.

Lemma step_slot s e s' :
  step s e = Some s' -> slotIsLatestLive s -> slotIsLatestLive s'.
Proof.
  step_cases s e; intros Hs.
  - by apply slot_update.
  - apply slot_update. by apply (slot_ext s).
  - by apply slot_none.
  - apply slot_none, gattProcess_onExit.
  - unfold onLine in H. repeat case_match; simplify_eq.
    + by apply slot_on_child.
    + apply slot_closeChildProcess. by apply (slot_ext s).
  - unfold stop. cbv zeta.
    eapply (slot_ext (closeChildProcess (set_timer None s))).
    + by destruct (record (closeChildProcess (set_timer None s))).
    + by destruct (record (closeChildProcess (set_timer None s))).
    + apply slot_closeChildProcess. by apply (slot_ext s).
Qed.

(** *** What the handlers do to one process *)

Lemma lookup_on_child f q p s :
  children (on_child f q s) !! p =
    if decide (q = p) then f <$> children s !! p else children s !! p.
Proof.
  simpl. rewrite list_lookup_alter. by case_decide; subst.
Qed.

(** [closeChildProcess] touches one process at most, the one in the
    slot, and only its SIGINT count and its [once('exit')] listeners. *)
Lemma lookup_closeChildProcess p s c :
  children s !! p = Some c ->
  exists c',
    children (closeChildProcess s) !! p = Some c' /\
    lineCounter c' = lineCounter c /\
    inputOpen c' = inputOpen c /\
    exited c' = exited c /\
    kills c' = (if decide (gattProcess s = Some p) then S (kills c) else kills c).
Proof.
  intros Hc. unfold closeChildProcess. destruct (gattProcess s) as [g |].
  - rewrite lookup_on_child, Hc. destruct (decide (g = p)) as [-> | Hne].
    + eexists. split; [reflexivity |]. rewrite decide_True by done. done.
    + exists c. rewrite decide_False by congruence. done.
  - exists c. by rewrite decide_False.
Qed.

Lemma lineCounterOf_on_child f q p s :
  (q = p -> forall c, lineCounter (f c) = lineCounter c) ->
  lineCounterOf p (on_child f q s) = lineCounterOf p s.
Proof.
  intros Hf. unfold lineCounterOf. rewrite lookup_on_child.
  case_decide; [| reflexivity].
  destruct (children s !! p); simpl; auto.
Qed.

Lemma lineCounterOf_closeChildProcess p s :
  lineCounterOf p (closeChildProcess s) = lineCounterOf p s.
Proof.
  unfold closeChildProcess. destruct (gattProcess s); [| reflexivity].
  by apply lineCounterOf_on_child.
Qed.

Lemma lineCounterOf_spawn p s :
  lineCounterOf p s = 0%nat -> lineCounterOf p (spawn s) = 0%nat.
Proof.
  unfold lineCounterOf. simpl. intros H.
  destruct (decide (p < length (children s))%nat) as [Hlt | Hge].
  - by rewrite lookup_app_l.
  - rewrite lookup_app_r by lia.
    by destruct (p - length (children s))%nat as [| [| k]].
Qed.

Lemma lineCounterOf_update p s :
  lineCounterOf p s = 0%nat -> lineCounterOf p (update s) = 0%nat.
Proof.
  intros H. destruct (update_cases s) as [-> | [msg ->]]; [exact H |].
  by apply lineCounterOf_spawn.
Qed.

Lemma lineCounterOf_onExit p q code s :
  lineCounterOf p (onExit q code s) = lineCounterOf p s.
Proof.
  unfold onExit. cbv zeta. rewrite lineCounterOf_on_child by done.
  transitivity (lineCounterOf p (on_child close_input q s)).
  - by repeat case_match.
  - by apply lineCounterOf_on_child.
Qed.

(** Until its first line arrives, the counter of a process is 0. *)
Lemma step_lineCounter_zero p s e s' :
  step s e = Some s' ->
  (forall line now, e <> Line p line now) ->
  lineCounterOf p s = 0%nat -> lineCounterOf p s' = 0%nat.
Proof.
  step_cases s e; intros Hne Hz.
  - by apply lineCounterOf_update.
  - by apply lineCounterOf_update.
  - unfold onError. cbv zeta.
    change (lineCounterOf p (on_child close_input q s) = 0%nat).
    by rewrite lineCounterOf_on_child.
  - by rewrite lineCounterOf_onExit.
  - unfold onLine in H. repeat case_match; simplify_eq.
    + rewrite lineCounterOf_on_child; [done |].
      intros ->. by destruct (Hne line now).
    + by rewrite lineCounterOf_closeChildProcess.
  - unfold stop. cbv zeta.
    transitivity (lineCounterOf p (closeChildProcess (set_timer None s))).
    + by repeat case_match.
    + by rewrite lineCounterOf_closeChildProcess.
Qed.

Lemma run_lineCounter_zero p es s s' :
  run s es = Some s' -> noLineOf p es ->
  lineCounterOf p s = 0%nat -> lineCounterOf p s' = 0%nat.
Proof.
  revert s. induction es as [| e es IH]; intros s Hrun Hno Hz; simpl in Hrun.
  - by simplify_eq.
  - destruct (step s e) as [s1 |] eqn:He; [| discriminate].
    apply (IH s1 Hrun).
    + intros line now Hin. apply (Hno line now). by right.
    + apply (step_lineCounter_zero p s e s1 He); [| exact Hz].
      intros line now ->. apply (Hno line now). by left.
Qed.

(** A process that can still deliver lines. *)
Lemma enabled_Line_inv s p line now :
  enabled s (Line p line now) = true ->
  exists c, children s !! p = Some c /\ inputOpen c = true /\ exited c = false.
Proof.
  simpl. destruct (children s !! p) as [c |]; simpl; [| discriminate].
  intros [H1 H2]%andb_true_iff. apply negb_true_iff in H2. eauto.
Qed.

Lemma enabled_of_lookup s p c :
  children s !! p = Some c -> inputOpen c = true -> exited c = false ->
  (forall line now, enabled s (Line p line now) = true) /\
  (forall code, enabled s (ProcExit p code) = true).
Proof.
  intros Hc Hin Hex. split; intros; simpl; rewrite Hc; simpl; by rewrite ?Hin, Hex.
Qed.

(** A data line publishes what it decodes to, and asks for the process
    in the slot to be closed. *)
Lemma onLine_data p line now s :
  is_Some (record s) -> pastFirstLine p s ->
  onLine p line now s =
    Normal (closeChildProcess (set_published (published s ++ [decode line now]) s)).
Proof.
  intros [r Hr] Hpast. unfold onLine.
  apply Nat.eqb_neq in Hpast. by rewrite Hpast, Hr.
Qed.

(** C8. [stop()] leaves the pending timeouts alone, and there is a run
    in which a subprocess exits with code 1, [stop()] then completes
    (interval cleared, health INACTIVE), and the retry timeout fires
    afterwards: [update()] runs and spawns a new subprocess. *)
Theorem C8_retry_fires_after_stop :
  (forall s, timeouts (stop s) = timeouts s) /\
  exists s1 s2,
    run (start sampleConfig newMijiaTemp) [ProcExit 0 (Some 1); Stop] = Some s1 /\
    timer s1 = None /\
    state s1 = (INACTIVE, None) /\
    timeouts s1 = [RETRY_TIMEOUT] /\
    step s1 (Retry 0) = Some s2 /\
    s2 = update (set_timeouts [] s1) /\
    length (children s2) = S (length (children s1)) /\
    gattProcess s2 = Some 1%nat /\
    state s2 = (BUSY, Some "updating values (retry 1) ...").
Proof.
  split.
  - intros s. unfold stop, closeChildProcess. cbv zeta. simpl.
    destruct (gattProcess s); simpl; by destruct (record s).
  - eexists. eexists.
    split; [by vm_compute |]. by vm_compute.
Qed.

(** C4 does not hold of the code: [stop()] does not wait.  Called while
    the subprocess 0 is running, it returns with health INACTIVE, the
    interval cleared and the record discarded, but with the handle still
    in the slot, the subprocess not exited and the promise of
    [closeChildProcess()] still pending on its [once('exit')] listener. *)
Theorem C4_stop_returns_before_exit :
  let s := start sampleConfig newMijiaTemp in
  let s' := stop s in
  gattProcess s = Some 0%nat /\
  timer s' = None /\
  discarded s' = 1%nat /\
  state s' = (INACTIVE, None) /\
  gattProcess s' = Some 0%nat /\
  closed s' = 0%nat /\
  enabled s' (ProcExit 0 None) = true /\
  exists c, children s' !! 0%nat = Some c /\
            exited c = false /\ kills c = 1%nat /\ closers c = 1%nat.
Proof.
  cbv zeta. repeat (split; [by vm_compute |]).
  eexists. by vm_compute.
Qed.

End Traces.

(** ** Sessions started with a given configuration *)

Section Started.

Variable config : MijiaTempConfig.t.

Lemma reachable_record s :
  reachable config s -> record s = Some (MijiaTempConfig.recordName config).
Proof.
  intros [es Hrun].
  apply (run_invariant (fun s => record s = Some (MijiaTempConfig.recordName config)))
    with (es := es) (s := start config newMijiaTemp); [| exact Hrun |].
  - intros s0 e s1 Hstep H0. by rewrite (step_record _ _ _ Hstep).
  - unfold start. cbv zeta. by rewrite record_update.
Qed.

Lemma reachable_slot s : reachable config s -> slotIsLatestLive s.
Proof.
  intros [es Hrun].
  apply (run_invariant slotIsLatestLive step_slot es _ _ Hrun).
  unfold start. cbv zeta. apply slot_update, slot_none. reflexivity.
Qed.

Lemma lineCounterOf_start p : lineCounterOf p (start config newMijiaTemp) = 0%nat.
Proof.
  unfold start. cbv zeta. apply lineCounterOf_update.
  unfold lineCounterOf. simpl. by destruct p.
Qed.

(** C5. The first line a subprocess prints is discarded whatever it
    contains: in any run of a started session, the first [Line] event of
    a process [p] publishes nothing, sends no signal and only advances
    the [lineCounter] of [p].  The counter belongs to the process, so
    this holds for every process spawned, not just the first. *)
Theorem C5_first_line_is_discarded
    (es : list Event) (p : pid) (line now : string) (s s' : Session) :
  run (start config newMijiaTemp) es = Some s ->
  noLineOf p es ->
  step s (Line p line now) = Some s' ->
  s' = on_child bump_lineCounter p s /\
  published s' = published s /\
  lineCounterOf p s' = 1%nat.
Proof.
  intros Hrun Hno Hstep.
  assert (Hz : lineCounterOf p s = 0%nat).
  { apply (run_lineCounter_zero p es _ _ Hrun Hno), lineCounterOf_start. }
  unfold step in Hstep.
  destruct (enabled s (Line p line now)) eqn:Hen; [| discriminate].
  simpl in Hstep, Hen. unfold onLine in Hstep. rewrite Hz in Hstep.
  simpl in Hstep. simplify_eq.
  split; [reflexivity |]. split; [reflexivity |].
  unfold lineCounterOf in *. rewrite lookup_on_child, decide_True by done.
  destruct (children s !! p); simpl in *; [by rewrite Hz | discriminate].
Qed.

(** C7, amended. In every state of a started session the slot, when
    set, names the subprocess spawned last, and that subprocess has not
    exited.  [update()] does not look at the slot: entered with
    [retryCounter < MAX_RETRY] it spawns and overwrites the slot, also
    while an earlier subprocess is running. *)
Theorem C7_slot_names_latest_live_process (s : Session) :
  reachable config s ->
  slotIsLatestLive s /\
  ((retryCounter s < MAX_RETRY)%nat ->
   children (update s) = (children s ++ [newChild s])%list /\
   gattProcess (update s) = Some (length (children s))).
Proof.
  intros Hreach. split; [by apply reachable_slot |].
  intros Hlt. unfold update.
  destruct (Nat.eqb (retryCounter s) 0); [done |].
  destruct (Nat.leb_spec MAX_RETRY (retryCounter s)); [lia | done].
Qed.

End Started.

Lemma C5_witness :
  run (start sampleConfig newMijiaTemp) [Tick] = Some afterTick /\
  noLineOf 1 [Tick] /\
  step afterTick (Line 1 sampleLine sampleTime) =
    Some (on_child bump_lineCounter 1 afterTick) /\
  on_child bump_lineCounter 1 afterTick = on_child bump_lineCounter 1 afterTick /\
  published (on_child bump_lineCounter 1 afterTick) = published afterTick /\
  lineCounterOf 1 (on_child bump_lineCounter 1 afterTick) = 1%nat.
Proof.
  assert (Hno : noLineOf 1 [Tick]).
  { intros line now [H | []]. discriminate H. }
  split; [by vm_compute |]. split; [exact Hno |]. split; [by vm_compute |].
  apply (C5_first_line_is_discarded sampleConfig [Tick] 1 sampleLine sampleTime
           afterTick (on_child bump_lineCounter 1 afterTick));
    [by vm_compute | exact Hno | by vm_compute].
Defined.

(** C7, as the claim states it, fails: right after [start] the slot
    holds subprocess 0; a tick of the interval while that subprocess is
    still running spawns subprocess 1, and two subprocesses are alive. *)
Lemma C7_counterexample :
  (gattProcess (start sampleConfig newMijiaTemp) = Some 0%nat /\
   step (start sampleConfig newMijiaTemp) Tick = Some afterTick /\
   length (children afterTick) = 2%nat /\
   length (live afterTick) = 2%nat) /\
  ~ (forall s, reachable sampleConfig s -> oneLiveProcess s) /\
  ~ (forall s, reachable sampleConfig s -> spawnsOnlyWhenIdle s).
Proof.
  split; [by vm_compute |]. split; intros H.
  - assert (Hone : oneLiveProcess afterTick).
    { apply H. exists [Tick]. by vm_compute. }
    vm_compute in Hone. lia.
  - assert (Hidle : spawnsOnlyWhenIdle (start sampleConfig newMijiaTemp)).
    { apply H. by exists []. }
    specialize (Hidle Tick afterTick).
    assert (Hslot : gattProcess (start sampleConfig newMijiaTemp) = None).
    { apply Hidle; [by vm_compute | vm_compute; lia]. }
    vm_compute in Hslot. discriminate Hslot.
Qed.

Lemma C7_witness :
  reachable sampleConfig afterTick /\
  slotIsLatestLive afterTick /\
  ((retryCounter afterTick < MAX_RETRY)%nat ->
   children (update afterTick) = (children afterTick ++ [newChild afterTick])%list /\
   gattProcess (update afterTick) = Some (length (children afterTick))).
Proof.
  assert (Hreach : reachable sampleConfig afterTick).
  { exists [Tick]. by vm_compute. }
  split; [exact Hreach |].
  apply (C7_slot_names_latest_live_process sampleConfig afterTick Hreach).
Defined.

(* ================================================================== *)
(** * Further properties of the line decoder *)

Section Payload.

Lemma trimEnd_cons c r :
  isWhiteSpace c = false -> trimEnd (String c r) = String c (trimEnd r).
Proof. intros H. simpl. by rewrite H. Qed.

Lemma trim_0x t : trim ("0x" ++ t) = "0x" ++ trimEnd t.
Proof. unfold trim. simpl trimStart. by rewrite !trimEnd_cons. Qed.

(** [+`0x${t}`]: trailing white space is dropped, and what is left must
    be one or more hexadecimal digits. *)
Lemma toNumber_0x t :
  toNumber ("0x" ++ t) =
    match trimEnd t with
    | EmptyString => NaN
    | String d ds =>
        match hexValue 0 (String d ds) with
        | Some v => Num (inject_Z v)
        | None => NaN
        end
    end.
Proof.
  unfold toNumber. rewrite trim_0x. simpl.
  by destruct (trimEnd t).
Qed.

Lemma hexValue_nonneg s : forall acc v, 0 <= acc -> hexValue acc s = Some v -> 0 <= v.
Proof.
  induction s as [| c r IH]; intros acc v Hacc; simpl.
  - intros [= <-]. exact Hacc.
  - destruct (hexDigit c) as [d |] eqn:Hd; [| discriminate].
    apply hexDigit_range in Hd. apply IH. lia.
Qed.

Lemma toNumber_0x_nonneg t :
  match toNumber ("0x" ++ t) with
  | NaN => True
  | Num q => (0 <= q)%Q
  end.
Proof.
  rewrite toNumber_0x. destruct (trimEnd t) as [| d ds]; [exact I |].
  destruct (hexValue 0 (String d ds)) as [v |] eqn:Hv; [| exact I].
  apply hexValue_nonneg in Hv; [| lia].
  unfold Qle. simpl. lia.
Qed.

(** X13. The decoder has no sign: whatever the line, a temperature or a
    humidity that is a number is not negative. *)
Theorem decode_never_negative (line now : string) :
  match temperature (decode line now) with
  | NaN => True
  | Num q => (0 <= q)%Q
  end /\
  match humidity (decode line now) with
  | NaN => True
  | Num q => (0 <= q)%Q
  end.
Proof.
  unfold decode. cbv zeta. simpl temperature. simpl humidity. split.
  - pose proof (toNumber_0x_nonneg
                  (subst (tokens line !! 1%nat) ++ subst (tokens line !! 0%nat))) as H.
    destruct (toNumber _) as [| q]; [exact I |].
    unfold JsNumber.div, Qle in *. simpl in *. lia.
  - apply toNumber_0x_nonneg.
Qed.

(** A sensor at -1.00 degrees is published as 654.36. *)
Example decode_frostLine :
  decode frostLine sampleTime = mkReading (Num 654.36) (Num (inject_Z 60)) sampleTime.
Proof. by vm_compute. Qed.

(** X14. A missing token reads [undefined], which is no number: with fewer
    than three tokens the humidity is [NaN], with fewer than two the
    temperature too. *)
Theorem decode_missing_tokens (line now : string) :
  (length (tokens line) < 3)%nat ->
  humidity (decode line now) = NaN /\
  ((length (tokens line) < 2)%nat -> temperature (decode line now) = NaN).
Proof.
  intros H3. unfold decode. cbv zeta. simpl temperature. simpl humidity. split.
  - rewrite (proj2 (lookup_ge_None (tokens line) 2)) by lia. reflexivity.
  - intros H2. rewrite (proj2 (lookup_ge_None (tokens line) 1)) by lia.
    rewrite toNumber_0x. simpl subst.
    change ("undefined" ++ subst (tokens line !! 0%nat))
      with (String "u" ("ndefined" ++ subst (tokens line !! 0%nat))).
    rewrite trimEnd_cons by reflexivity. reflexivity.
Qed.

Lemma decode_missing_tokens_witness :
  (length (tokens "value: 8e") < 3)%nat /\
  humidity (decode "value: 8e" sampleTime) = NaN /\
  ((length (tokens "value: 8e") < 2)%nat ->
   temperature (decode "value: 8e" sampleTime) = NaN).
Proof.
  split; [vm_compute; lia |].
  apply (decode_missing_tokens "value: 8e" sampleTime). vm_compute. lia.
Defined.

(** [split] never gives an empty array: [values[0]] is always defined. *)
Lemma split_nonempty sep s : split sep s <> [].
Proof.
  destruct s as [| c r]; simpl; [discriminate |].
  destruct (Ascii.eqb c sep); [discriminate |].
  destruct (split sep r); discriminate.
Qed.

Lemma drop_app_length pre s k :
  drop (String.length pre + k) (pre ++ s) = drop k s.
Proof. induction pre as [| a pre IH]; simpl; [reflexivity | exact IH]. Qed.

Lemma drop_0 s : drop 0 s = s.
Proof. by destruct s. Qed.

Lemma append_cons a s t : String a s ++ t = String a (s ++ t).
Proof. reflexivity. Qed.

Lemma append_nil t : "" ++ t = t.
Proof. reflexivity. Qed.

Lemma prefix_nil s : String.prefix "" s = true.
Proof. by destruct s. Qed.

Lemma prefix_cons a s1 b s2 :
  String.prefix (String a s1) (String b s2) =
    if Ascii.eqb a b then String.prefix s1 s2 else false.
Proof.
  cbn [String.prefix]. destruct (ascii_dec a b) as [-> | Hne].
  - by rewrite Ascii.eqb_refl.
  - apply Ascii.eqb_neq in Hne. by rewrite Hne.
Qed.

(** The marker does not start inside a prefix that has no colon. *)
Lemma prefix_marker_no_colon a pre rest :
  hasChar ":" (String a pre) = false ->
  String.prefix "value:" (String a pre ++ "value:" ++ rest) = false.
Proof.
  intros Hno.
  destruct pre as [| a1 [| a2 [| a3 [| a4 [| a5 pre]]]]];
    rewrite !append_cons, ?append_nil, !prefix_cons;
    repeat case_match; try reflexivity; try discriminate.
  match goal with
  | H : Ascii.eqb ":" a5 = true |- _ => apply Ascii.eqb_eq in H; subst a5
  end.
  cbn [hasChar] in Hno. rewrite Ascii.eqb_refl in Hno.
  cbn [orb] in Hno. rewrite ?orb_true_r in Hno. discriminate Hno.
Qed.

Lemma index_marker_no_colon pre rest :
  hasChar ":" pre = false ->
  index 0 "value:" (pre ++ "value:" ++ rest) = Some (String.length pre).
Proof.
  induction pre as [| a pre IH]; intros Hno.
  - rewrite append_nil.
    change ("value:" ++ rest)
      with (String "v" (String "a" (String "l" (String "u" (String "e" (String ":" rest)))))).
    cbn [index]. rewrite prefix_cons, Ascii.eqb_refl.
    do 5 rewrite prefix_cons, Ascii.eqb_refl.
    by rewrite prefix_nil.
  - change (index 0 "value:" (String a pre ++ "value:" ++ rest))
      with (if String.prefix "value:" (String a pre ++ "value:" ++ rest) then Some 0%nat
            else match index 0 "value:" (pre ++ "value:" ++ rest) with
                 | Some n => Some (S n)
                 | None => None
                 end).
    rewrite prefix_marker_no_colon by exact Hno.
    simpl in Hno. apply orb_false_iff in Hno as [_ Hno].
    by rewrite IH.
Qed.

(** X15. On a line that has the marker after a prefix without a colon (as in
    gatttool's [Notification handle = 0x000e value: ...]), the tokens
    are those of what follows the marker, trimmed and cut at every
    single space; the prefix plays no part. *)
Theorem tokens_after_marker (pre rest : string) :
  hasChar ":" pre = false ->
  tokens (pre ++ "value:" ++ rest) = split " " (trim rest).
Proof.
  intros Hno. unfold tokens, indexOf, substring.
  rewrite index_marker_no_colon by exact Hno.
  replace (Z.to_nat (Z.of_nat (String.length pre) + 6)) with (String.length pre + 6)%nat by lia.
  rewrite drop_app_length. reflexivity.
Qed.

Lemma tokens_after_marker_witness :
  hasChar ":" "Notification handle = 0x000e " = false /\
  tokens ("Notification handle = 0x000e " ++ "value:" ++ " 8e 01 3c ") =
    split " " (trim " 8e 01 3c ").
Proof.
  split; [by vm_compute |].
  apply (tokens_after_marker "Notification handle = 0x000e " " 8e 01 3c ").
  by vm_compute.
Defined.

Lemma tokens_marker_first rest : tokens ("value:" ++ rest) = split " " (trim rest).
Proof.
  pose proof (index_marker_no_colon "" rest eq_refl) as Hidx.
  rewrite append_nil in Hidx.
  unfold tokens, indexOf, substring. rewrite Hidx.
  change (Z.to_nat (Z.of_nat (String.length "") + 6)) with (String.length "value:" + 0)%nat.
  rewrite drop_app_length. apply f_equal, f_equal, drop_0.
Qed.

(** X16. A line without the marker is not rejected: [indexOf] gives -1, and
    the line is decoded from its sixth character on, like the line that
    has the marker in its place. *)
Theorem decode_without_value_marker (line now : string) :
  indexOf line "value:" = -1 ->
  tokens line = split " " (trim (drop 5 line)) /\
  decode line now = decode ("value:" ++ drop 5 line) now.
Proof.
  intros Hidx.
  assert (Ht : tokens line = split " " (trim (drop 5 line))).
  { unfold tokens, substring. by rewrite Hidx. }
  split; [exact Ht |].
  unfold decode. cbv zeta. rewrite Ht.
  by rewrite tokens_marker_first.
Qed.

Lemma decode_without_value_marker_witness :
  indexOf "temp 8e 01 3c" "value:" = -1 /\
  tokens "temp 8e 01 3c" = split " " (trim (drop 5 "temp 8e 01 3c")) /\
  decode "temp 8e 01 3c" sampleTime = decode ("value:" ++ drop 5 "temp 8e 01 3c") sampleTime.
Proof.
  split; [by vm_compute |].
  apply (decode_without_value_marker "temp 8e 01 3c" sampleTime). by vm_compute.
Defined.

End Payload.

(* ================================================================== *)
(** * Further properties of the poll cycle *)

Section Cycles.

Lemma run_app s es1 es2 :
  run s (es1 ++ es2) = match run s es1 with
                       | Some s' => run s' es2
                       | None => None
                       end.
Proof.
  revert s. induction es1 as [| e es1 IH]; intros s; simpl; [reflexivity |].
  destruct (step s e); [apply IH | reflexivity].
Qed.

Lemma all_exited_live s :
  (forall q c, children s !! q = Some c -> exited c = true) -> live s = [].
Proof.
  unfold live. intros H. apply Forall_lookup_2 in H.
  induction H as [| c l Hc _ IH]; [reflexivity |].
  rewrite filter_cons_False by congruence. exact IH.
Qed.

(** What the exit listener leaves of the processes and of the fields
    it does not mention. *)
Lemma onExit_frame p code s :
  children (onExit p code s) = alter mark_exited p (alter close_input p (children s)) /\
  record (onExit p code s) = record s /\
  timer (onExit p code s) = timer s /\
  published (onExit p code s) = published s /\
  discarded (onExit p code s) = discarded s /\
  closed (onExit p code s) = (closed s + from_option closers 0 (children s !! p))%nat.
Proof.
  assert (Hn : from_option closers 0%nat (alter close_input p (children s) !! p)
               = from_option closers 0%nat (children s !! p)).
  { rewrite list_lookup_alter_eq. by destruct (children s !! p). }
  unfold onExit. cbv zeta.
  destruct (isCleanExit code); simpl; rewrite Hn;
    destruct (Nat.eqb_spec (from_option closers 0%nat (children s !! p)) 0) as [Hz | _];
    simpl; rewrite ?Hz; repeat split; lia.
Qed.

Lemma onExit_abnormal p code s :
  isCleanExit code = false ->
  retryCounter (onExit p code s) = S (retryCounter s) /\
  timeouts (onExit p code s) = (timeouts s ++ [RETRY_TIMEOUT])%list /\
  state (onExit p code s) = state s.
Proof.
  intros Hc. unfold onExit. cbv zeta. rewrite Hc.
  by repeat case_match.
Qed.

Lemma onExit_clean p code s :
  isCleanExit code = true ->
  retryCounter (onExit p code s) = 0%nat /\
  timeouts (onExit p code s) = timeouts s /\
  state (onExit p code s) = (OK, None).
Proof.
  intros Hc. unfold onExit. cbv zeta. rewrite Hc.
  by repeat case_match.
Qed.

(** [update()] between the first attempt and the last retry. *)
Lemma update_retry s :
  retryCounter s <> 0%nat -> (retryCounter s < MAX_RETRY)%nat ->
  update s = spawn (setState BUSY (Some (retryMessage (retryCounter s))) s).
Proof.
  intros Hz Hlt. unfold update.
  destruct (Nat.eqb_spec (retryCounter s) 0); [done |].
  destruct (Nat.leb_spec MAX_RETRY (retryCounter s)); [lia | done].
Qed.

Lemma step_ok s e s' :
  enabled s e = true -> handle s e = Normal s' -> step s e = Some s'.
Proof. intros He Hh. unfold step. by rewrite He, Hh. Qed.

Lemma run_cons s e s1 es : step s e = Some s1 -> run s (e :: es) = run s1 es.
Proof. intros H. simpl. by rewrite H. Qed.

Lemma enabled_ProcExit s p c code :
  children s !! p = Some c -> exited c = false -> enabled s (ProcExit p code) = true.
Proof. intros Hc Hex. simpl. rewrite Hc. simpl. by rewrite Hex. Qed.

(** After the exit listener of [p], [p] has exited and the other
    processes are as they were. *)
Lemma lookup_after_exit p code s q c' :
  children (onExit p code s) !! q = Some c' ->
  (q = p /\ exited c' = true) \/ (q <> p /\ children s !! q = Some c').
Proof.
  destruct (onExit_frame p code s) as (-> & _).
  destruct (decide (q = p)) as [-> | Hne].
  - rewrite !list_lookup_alter_eq. destruct (children s !! p); simpl; [| discriminate].
    intros [= <-]. by left.
  - rewrite !list_lookup_alter_ne by done. by right.
Qed.

(** One failed attempt: the process exits with a code other than 0 and
    130, the timeout fires, [update()] spawns the next process. *)
Lemma fail_and_retry p code s :
  soleProcess p s -> isCleanExit code = false ->
  (S (retryCounter s) < MAX_RETRY)%nat ->
  exists s',
    run s [ProcExit p code; Retry 0] = Some s' /\
    soleProcess (S p) s' /\
    retryCounter s' = S (retryCounter s) /\
    record s' = record s /\ timer s' = timer s /\ published s' = published s /\
    state s' = (BUSY, Some (retryMessage (S (retryCounter s)))).
Proof.
  intros (Hslot & Hlen & (c & Hc & Hex & Hin & Hcl) & Hothers & Hto) Hcode Hlt.
  destruct (onExit_frame p code s) as (Hch1 & Hrec1 & Htm1 & Hpub1 & _).
  destruct (onExit_abnormal p code s Hcode) as (Hr1 & Ht1 & Hst1).
  remember (onExit p code s) as s1 eqn:Hs1.
  set (s1' := set_timeouts (delete 0%nat (timeouts s1)) s1).
  assert (Hlen1 : length (children s1) = S p).
  { rewrite Hch1, !length_alter. lia. }
  assert (Hupd : update s1' = spawn (setState BUSY (Some (retryMessage (S (retryCounter s)))) s1')).
  { assert (Hr1' : retryCounter s1' = S (retryCounter s)) by exact Hr1.
    rewrite update_retry by (rewrite Hr1'; lia). by rewrite Hr1'. }
  exists (update s1'). split.
  - rewrite (run_cons s _ s1).
    + rewrite (run_cons s1 _ (update s1')); [done |].
      apply step_ok; [| done]. simpl. by rewrite Ht1, Hto.
    + apply step_ok; [| by rewrite Hs1]. by apply (enabled_ProcExit s p c).
  - rewrite Hupd. split; [| by simpl].
    unfold soleProcess. simpl. rewrite Ht1, Hto. simpl.
    repeat split; try done.
    + by rewrite Hlen1.
    + rewrite length_app, Hlen1. simpl. lia.
    + exists (newChild (setState BUSY (Some (retryMessage (S (retryCounter s)))) s1')).
      split; [| done]. rewrite <- Hlen1. by rewrite list_lookup_middle.
    + intros q c' Hq Hne.
      assert (Hq1 : children s1 !! q = Some c').
      { destruct (decide (q < length (children s1))%nat) as [Hlt' | Hge].
        - by rewrite lookup_app_l in Hq.
        - rewrite lookup_app_r in Hq by lia.
          destruct (q - length (children s1))%nat as [| k] eqn:Hk; [lia |].
          by destruct k. }
      rewrite Hs1 in Hq1.
      destruct (lookup_after_exit p code s q c' Hq1) as [[_ H] | [Hqp H]]; [done |].
      by apply (Hothers q).
Qed.

Lemma run_failures codes :
  forall p s,
    soleProcess p s ->
    Forall (fun code => isCleanExit code = false) codes ->
    (retryCounter s + length codes < MAX_RETRY)%nat ->
    exists s',
      run s (failures p codes) = Some s' /\
      soleProcess (p + length codes) s' /\
      retryCounter s' = (retryCounter s + length codes)%nat /\
      record s' = record s /\ timer s' = timer s /\ published s' = published s /\
      (codes <> [] -> state s' = (BUSY, Some (retryMessage (retryCounter s')))).
Proof.
  induction codes as [| code codes IH]; intros p s Hsole Hcodes Hlt.
  - exists s. simpl. rewrite !Nat.add_0_r.
    split; [done |]. split; [exact Hsole |].
    do 4 (split; [done |]). intros H. by destruct H.
  - inversion Hcodes as [| ? ? Hcode Hrest]; subst. simpl in Hlt.
    destruct (fail_and_retry p code s Hsole Hcode) as
      (s1 & Hrun1 & Hsole1 & Hr1 & Hrec1 & Htm1 & Hpub1 & Hst1); [lia |].
    destruct (IH (S p) s1 Hsole1 Hrest) as
      (s' & Hrun & Hsole' & Hr' & Hrec' & Htm' & Hpub' & Hst'); [lia |].
    exists s'. split.
    { change (failures p (code :: codes))
        with ([ProcExit p code; Retry 0%nat] ++ failures (S p) codes)%list.
      by rewrite run_app, Hrun1. }
    simpl length. replace (p + S (length codes))%nat with (S p + length codes)%nat by lia.
    split; [exact Hsole' |]. split; [lia |].
    do 3 (split; [congruence |]).
    intros _. destruct codes as [| code' codes'].
    + simpl in Hrun. simplify_eq. by rewrite Hst1, Hr1.
    + by apply Hst'.
Qed.

Lemma start_soleProcess config :
  soleProcess 0 (start config newMijiaTemp) /\
  retryCounter (start config newMijiaTemp) = 0%nat.
Proof.
  split; [| reflexivity].
  repeat split; try reflexivity.
  - eexists. by repeat split.
  - intros [| q] c Hq Hne; [done | discriminate Hq].
Qed.

Lemma failures_app codes1 : forall p codes2,
  failures p (codes1 ++ codes2) =
    (failures p codes1 ++ failures (p + length codes1) codes2)%list.
Proof.
  induction codes1 as [| c codes1 IH]; intros p codes2; simpl.
  - by rewrite Nat.add_0_r.
  - rewrite IH. by replace (S p + length codes1)%nat with (p + S (length codes1))%nat by lia.
Qed.

(** The exit of the only running process leaves none running. *)
Lemma sole_exit p code s :
  soleProcess p s ->
  step s (ProcExit p code) = Some (onExit p code s) /\
  live (onExit p code s) = [] /\
  length (children (onExit p code s)) = S p /\
  gattProcess (onExit p code s) = None.
Proof.
  intros (Hslot & Hlen & (c & Hc & Hex & Hin & Hcl) & Hothers & Hto).
  split; [| split; [| split]].
  - apply step_ok; [| done]. by apply (enabled_ProcExit s p c).
  - apply all_exited_live. intros q c' Hq.
    destruct (lookup_after_exit p code s q c' Hq) as [[_ H] | [Hqp H]]; [done |].
    by apply (Hothers q).
  - destruct (onExit_frame p code s) as (-> & _). rewrite !length_alter. lia.
  - apply gattProcess_onExit.
Qed.



(** X2. Fewer than [MAX_RETRY] failed attempts in a row, each retried after
    its timeout, followed by an attempt that exits with 0 or 130: health
    ends OK, the retry counter is back at 0, one process was spawned per
    attempt, none is left running and no retry is pending. *)
Theorem transient_failures_recover
    (config : MijiaTempConfig.t) (codes : list (option Z)) (final : option Z) :
  Forall (fun code => isCleanExit code = false) codes ->
  (length codes < MAX_RETRY)%nat ->
  isCleanExit final = true ->
  exists s',
    run (start config newMijiaTemp)
        (failures 0 codes ++ [ProcExit (length codes) final]) = Some s' /\
    state s' = (OK, None) /\
    retryCounter s' = 0%nat /\
    length (children s') = S (length codes) /\
    live s' = [] /\
    gattProcess s' = None /\
    timeouts s' = [] /\
    published s' = [].
Proof.
  intros Hcodes Hlen Hfinal.
  destruct (start_soleProcess config) as [Hsole0 Hr0].
  destruct (run_failures codes 0%nat _ Hsole0 Hcodes) as
    (s1 & Hrun & Hsole & Hr & Hrec & Htm & Hpub & _); [rewrite Hr0; lia |].
  simpl in Hsole.
  destruct (sole_exit (length codes) final s1 Hsole) as (Hstep & Hlive & Hlen' & Hslot).
  destruct (onExit_clean (length codes) final s1 Hfinal) as (Hr' & Hto' & Hst').
  destruct (onExit_frame (length codes) final s1) as (_ & _ & _ & Hpub' & _).
  exists (onExit (length codes) final s1). split.
  { rewrite run_app, Hrun. simpl. by rewrite Hstep. }
  repeat split; try done.
  - rewrite Hto'. by destruct Hsole as (_ & _ & _ & _ & ->).
  - by rewrite Hpub', Hpub.
Qed.

Lemma transient_failures_recover_witness :
  exists s',
    run (start sampleConfig newMijiaTemp)
        (failures 0 [Some 1; None; Some 1] ++ [ProcExit 3 (Some 0)]) = Some s' /\
    state s' = (OK, None) /\
    retryCounter s' = 0%nat /\
    length (children s') = 4%nat /\
    live s' = [] /\
    gattProcess s' = None /\
    timeouts s' = [] /\
    published s' = [].
Proof.
  apply (transient_failures_recover sampleConfig [Some 1; None; Some 1] (Some 0)).
  - by repeat constructor.
  - vm_compute. lia.
  - reflexivity.
Defined.

(** X3. [MAX_RETRY] failed attempts in a row: the timeout after the last one
    runs [update()], which gives up: health PROBLEM, counter 0, nothing
    spawned, nothing pending.  The session is not dead: the next tick of
    the interval starts a fresh cycle. *)
Theorem persistent_failures_give_up
    (config : MijiaTempConfig.t) (codes : list (option Z)) :
  Forall (fun code => isCleanExit code = false) codes ->
  length codes = MAX_RETRY ->
  exists s' s'',
    run (start config newMijiaTemp) (failures 0 codes) = Some s' /\
    state s' = (PROBLEM, Some "unable to connect to device") /\
    retryCounter s' = 0%nat /\
    length (children s') = MAX_RETRY /\
    live s' = [] /\
    gattProcess s' = None /\
    timeouts s' = [] /\
    step s' Tick = Some s'' /\
    state s'' = (BUSY, Some "updating values ...") /\
    length (children s'') = S MAX_RETRY /\
    gattProcess s'' = Some MAX_RETRY.
Proof.
  intros Hcodes Hlen.
  destruct (start_soleProcess config) as [Hsole0 Hr0].
  induction codes as [| c0 codes9 _] using rev_ind; [discriminate Hlen |].
  rewrite length_app in Hlen. simpl in Hlen. unfold MAX_RETRY in *.
  apply Forall_app in Hcodes as [Hcodes9 Hlast].
  inversion Hlast as [| ? ? Hc0 _]; subst.
  destruct (run_failures codes9 0%nat _ Hsole0 Hcodes9) as
    (s9 & Hrun & Hsole & Hr & Hrec & Htm & Hpub & _); [rewrite Hr0; unfold MAX_RETRY; lia |].
  simpl in Hsole. rewrite Hr0 in Hr. simpl in Hr.
  destruct (sole_exit (length codes9) c0 s9 Hsole) as (Hstep & Hlive & Hlen' & Hslot).
  destruct (onExit_abnormal (length codes9) c0 s9 Hc0) as (Hr' & Hto' & Hst').
  destruct (onExit_frame (length codes9) c0 s9) as (Hch' & _ & Htm' & _).
  remember (onExit (length codes9) c0 s9) as s10 eqn:Hs10.
  assert (Hto10 : timeouts s10 = [RETRY_TIMEOUT]).
  { rewrite Hto'. by destruct Hsole as (_ & _ & _ & _ & ->). }
  set (s10' := set_timeouts (delete 0%nat (timeouts s10)) s10).
  assert (Hr10 : retryCounter s10' = 10%nat).
  { change (retryCounter s10 = 10%nat). lia. }
  assert (Hupd : update s10' =
                 set_retryCounter 0 (setState PROBLEM (Some "unable to connect to device") s10')).
  { unfold update. by rewrite Hr10. }
  assert (Htimer : timer (update s10') = Some (default 300 (MijiaTempConfig.interval config) * 1000)).
  { rewrite Hupd. change (timer s10 = Some (default 300 (MijiaTempConfig.interval config) * 1000)).
    by rewrite Htm', Htm. }
  exists (update s10'), (update (update s10')). split.
  { rewrite failures_app, run_app, Hrun. simpl failures.
    rewrite (run_cons s9 _ s10 _ Hstep).
    rewrite (run_cons s10 _ (update s10')); [done |].
    apply step_ok; [| done]. simpl. by rewrite Hto10. }
  assert (Hch : children (update s10') = children s10) by by rewrite Hupd.
  assert (Hupd2 : update (update s10') =
                  spawn (setState BUSY (Some "updating values ...") (update s10'))).
  { unfold update at 1. by rewrite Hupd. }
  split; [by rewrite Hupd |]. split; [by rewrite Hupd |].
  split; [rewrite Hch; lia |].
  split; [unfold live in *; by rewrite Hch |].
  split; [by rewrite Hupd |].
  split; [rewrite Hupd; simpl; by rewrite Hto10 |].
  split; [apply step_ok; [simpl; by rewrite Htimer | done] |].
  rewrite Hupd2. simpl. rewrite Hch, length_app, Hlen'. simpl.
  repeat split; f_equal; lia.
Qed.

Lemma persistent_failures_give_up_witness :
  exists s' s'',
    run (start sampleConfig newMijiaTemp) (failures 0 (replicate 10 (Some 1))) = Some s' /\
    state s' = (PROBLEM, Some "unable to connect to device") /\
    retryCounter s' = 0%nat /\
    length (children s') = MAX_RETRY /\
    live s' = [] /\
    gattProcess s' = None /\
    timeouts s' = [] /\
    step s' Tick = Some s'' /\
    state s'' = (BUSY, Some "updating values ...") /\
    length (children s'') = S MAX_RETRY /\
    gattProcess s'' = Some MAX_RETRY.
Proof.
  apply (persistent_failures_give_up sampleConfig (replicate 10 (Some 1))).
  - by repeat constructor.
  - reflexivity.
Defined.

(** [closeChildProcess()] with [p] in the slot. *)
Lemma closeChildProcess_slot p s c :
  gattProcess s = Some p -> children s !! p = Some c ->
  closeChildProcess s = on_child once_exit_and_kill p s /\
  children (closeChildProcess s) !! p = Some (once_exit_and_kill c).
Proof.
  intros Hslot Hc. unfold closeChildProcess. rewrite Hslot.
  split; [reflexivity |]. by rewrite lookup_on_child, decide_True, Hc.
Qed.

Lemma run_data_lines_frame p lines :
  forall s c,
    is_Some (record s) -> gattProcess s = Some p ->
    children s !! p = Some c ->
    lineCounter c <> 0%nat -> inputOpen c = true -> exited c = false ->
    exists s' c',
      run s (deliver p lines) = Some s' /\
      published s' = (published s ++ map (fun ln => decode (fst ln) (snd ln)) lines)%list /\
      children s' !! p = Some c' /\
      kills c' = (kills c + length lines)%nat /\
      closers c' = (closers c + length lines)%nat /\
      exited c' = false /\
      gattProcess s' = Some p /\
      retryCounter s' = retryCounter s /\ timeouts s' = timeouts s /\
      closed s' = closed s /\ state s' = state s.
Proof.
  induction lines as [| [line now] lines IH]; intros s c Hrec Hslot Hc Hlc Hin Hex.
  - exists s, c. simpl. rewrite app_nil_r, !Nat.add_0_r. by repeat split.
  - set (s1 := set_published (published s ++ [decode line now]) s).
    destruct (closeChildProcess_slot p s1 c Hslot Hc) as [Hclose Hc1].
    destruct (IH (closeChildProcess s1) (once_exit_and_kill c)) as
      (s' & c' & Hrun & Hpub & Hc' & Hk' & Hcl' & Hex' & Hslot' & Hr' & Hto' & Hcd' & Hst');
      try done.
    + by rewrite record_closeChildProcess.
    + by rewrite Hclose.
    + exists s', c'. split.
      { simpl deliver. rewrite (run_cons s _ (closeChildProcess s1)); [exact Hrun |].
        apply step_ok.
        - simpl. rewrite Hc. simpl. by rewrite Hin, Hex.
        - simpl. apply onLine_data; [exact Hrec |].
          unfold pastFirstLine, lineCounterOf. by rewrite Hc. }
      rewrite Hclose in Hpub, Hr', Hto', Hcd', Hst'. simpl in *.
      rewrite Hpub, <- app_assoc. repeat split; try done; lia.
Qed.

(** X4. A whole cycle that goes well: the subprocess in the slot prints its
    first line and [n] data lines, then exits with 0 or 130.  The [n]
    readings are published in order, health ends OK with the counter at
    0, the slot is empty, no retry is added, and every promise made by
    [closeChildProcess()] along the way is resolved by the exit.  With
    [n = 0] health is OK although nothing was read. *)
Theorem clean_cycle_publishes_and_settles
    (p : pid) (s : Session) (c : ChildProcess)
    (first : string * string) (lines : list (string * string)) (code : option Z) :
  is_Some (record s) ->
  gattProcess s = Some p ->
  children s !! p = Some c ->
  lineCounter c = 0%nat -> inputOpen c = true -> exited c = false ->
  isCleanExit code = true ->
  exists s' c',
    run s (deliver p (first :: lines) ++ [ProcExit p code]) = Some s' /\
    published s' = (published s ++ map (fun ln => decode (fst ln) (snd ln)) lines)%list /\
    state s' = (OK, None) /\
    retryCounter s' = 0%nat /\
    gattProcess s' = None /\
    timeouts s' = timeouts s /\
    closed s' = (closed s + closers c + length lines)%nat /\
    children s' !! p = Some c' /\
    exited c' = true /\ closers c' = 0%nat /\
    kills c' = (kills c + length lines)%nat.
Proof.
  intros Hrec Hslot Hc Hlc Hin Hex Hcode.
  set (s0 := on_child bump_lineCounter p s).
  assert (Hc0 : children s0 !! p = Some (bump_lineCounter c)).
  { unfold s0. by rewrite lookup_on_child, decide_True, Hc. }
  destruct (run_data_lines_frame p lines s0 (bump_lineCounter c)) as
    (s1 & c1 & Hrun & Hpub & Hc1 & Hk1 & Hcl1 & Hex1 & Hslot1 & Hr1 & Hto1 & Hcd1 & Hst1);
    try done.
  destruct (onExit_clean p code s1 Hcode) as (Hr2 & Hto2 & Hst2).
  destruct (onExit_frame p code s1) as (Hch2 & _ & _ & Hpub2 & _ & Hcd2).
  exists (onExit p code s1), (mark_exited (close_input c1)). split.
  { rewrite run_app. simpl deliver.
    rewrite (run_cons s _ s0).
    - fold (deliver p lines). rewrite Hrun.
      apply run_cons with (es := []), step_ok; [| done].
      by apply (enabled_ProcExit s1 p c1).
    - apply step_ok.
      + simpl. rewrite Hc. simpl. by rewrite Hin, Hex.
      + simpl. unfold onLine, lineCounterOf. rewrite Hc. simpl. by rewrite Hlc. }
  rewrite Hpub2, Hpub, Hto2, Hto1, Hcd2, Hcd1, Hc1, Hch2. simpl.
  rewrite !list_lookup_alter_eq, Hc1. simpl in *.
  repeat split; try done; try lia. apply gattProcess_onExit.
Qed.

Lemma clean_cycle_publishes_and_settles_witness :
  exists s' c',
    run (start sampleConfig newMijiaTemp)
        (deliver 0 sampleOutput ++ [ProcExit 0 (Some 130)]) = Some s' /\
    published s' =
      [mkReading (Num 3.98) (Num (inject_Z 60)) "2019-02-03T10:00:01.000Z";
       mkReading (Num 4.00) (Num (inject_Z 59)) "2019-02-03T10:00:02.000Z"] /\
    state s' = (OK, None) /\
    retryCounter s' = 0%nat /\
    gattProcess s' = None /\
    timeouts s' = [] /\
    closed s' = 2%nat /\
    children s' !! 0%nat = Some c' /\
    exited c' = true /\ closers c' = 0%nat /\
    kills c' = 2%nat.
Proof.
  apply (clean_cycle_publishes_and_settles 0 (start sampleConfig newMijiaTemp)
           (newChild (start sampleConfig newMijiaTemp))
           ("Characteristic value was written successfully", "2019-02-03T10:00:00.000Z")
           [("Notification handle = 0x000e value: 8e 01 3c", "2019-02-03T10:00:01.000Z");
            ("Notification handle = 0x000e value: 90 01 3b", "2019-02-03T10:00:02.000Z")]
           (Some 130));
    first [ by eexists | by vm_compute ].
Defined.

(** X5. The line handler signals the process in the slot, which is not
    always the one that printed the line: when a newer process [g] has
    taken the slot, a data line of [p] publishes its reading and sends
    SIGINT to [g]; [p] itself is left alone. *)
Theorem data_line_signals_slot_process
    (p g : pid) (s : Session) (cp cg : ChildProcess) (line now : string) :
  is_Some (record s) ->
  pastFirstLine p s ->
  gattProcess s = Some g -> g <> p ->
  children s !! p = Some cp -> children s !! g = Some cg ->
  exists s',
    onLine p line now s = Normal s' /\
    published s' = (published s ++ [decode line now])%list /\
    children s' !! p = Some cp /\
    children s' !! g = Some (once_exit_and_kill cg).
Proof.
  intros Hrec Hpast Hslot Hne Hp Hg.
  set (s1 := set_published (published s ++ [decode line now]) s).
  destruct (closeChildProcess_slot g s1 cg Hslot Hg) as [Hclose Hg1].
  exists (closeChildProcess s1).
  split; [by apply onLine_data |].
  split; [by rewrite published_closeChildProcess |].
  split; [| exact Hg1].
  rewrite Hclose, lookup_on_child, decide_False by done. exact Hp.
Qed.

Lemma data_line_signals_slot_process_witness :
  exists s',
    onLine 0 sampleLine sampleTime overlapping = Normal s' /\
    published s' = (published overlapping ++ [decode sampleLine sampleTime])%list /\
    children s' !! 0%nat = Some (bump_lineCounter (newChild (start sampleConfig newMijiaTemp))) /\
    children s' !! 1%nat =
      Some (once_exit_and_kill (newChild (start sampleConfig newMijiaTemp))).
Proof.
  apply (data_line_signals_slot_process 0 1 overlapping);
    first [ by eexists | by vm_compute | (vm_compute; lia) ].
Defined.

(** X6. With the slot empty (an exit or error of another process has
    cleared it), a data line still publishes, and the promise of
    [closeChildProcess()] resolves at once, but no process is signalled:
    the one that printed the line keeps running. *)
Theorem data_line_with_empty_slot_signals_nobody
    (p : pid) (s : Session) (line now : string) :
  is_Some (record s) ->
  pastFirstLine p s ->
  gattProcess s = None ->
  exists s',
    onLine p line now s = Normal s' /\
    published s' = (published s ++ [decode line now])%list /\
    children s' = children s /\
    closed s' = S (closed s).
Proof.
  intros Hrec Hpast Hslot. eexists.
  split; [by apply onLine_data |].
  unfold closeChildProcess. simpl. by rewrite Hslot.
Qed.

Lemma data_line_with_empty_slot_signals_nobody_witness :
  reachable sampleConfig staleSlot /\
  enabled staleSlot (Line 0 sampleLine sampleTime) = true /\
  exists s',
    onLine 0 sampleLine sampleTime staleSlot = Normal s' /\
    published s' = (published staleSlot ++ [decode sampleLine sampleTime])%list /\
    children s' = children staleSlot /\
    closed s' = S (closed staleSlot).
Proof.
  split; [exists [Tick; Line 0 "" ""; ProcExit 1 (Some 1)]; by vm_compute |].
  split; [by vm_compute |].
  apply (data_line_with_empty_slot_signals_nobody 0 staleSlot sampleLine sampleTime);
    first [ by eexists | by vm_compute | (vm_compute; lia) ].
Defined.

(** X7. [stop()] keeps no note of having run: called [n] times while the
    subprocess in the slot has not exited, it discards the record [n]
    times and sends [n] SIGINTs, and none of the [n] promises of
    [closeChildProcess()] is resolved yet. *)
Theorem stop_is_repeated_in_full
    (n : nat) (s : Session) (p : pid) (c : ChildProcess) :
  is_Some (record s) ->
  gattProcess s = Some p ->
  children s !! p = Some c ->
  let s' := stopTimes n s in
  discarded s' = (discarded s + n)%nat /\
  closed s' = closed s /\
  gattProcess s' = Some p /\
  exists c',
    children s' !! p = Some c' /\
    kills c' = (kills c + n)%nat /\
    closers c' = (closers c + n)%nat /\
    exited c' = exited c.
Proof.
  intros Hrec Hslot Hc. cbv zeta.
  assert (H : record (stopTimes n s) = record s /\
              discarded (stopTimes n s) = (discarded s + n)%nat /\
              closed (stopTimes n s) = closed s /\
              gattProcess (stopTimes n s) = Some p /\
              exists c',
                children (stopTimes n s) !! p = Some c' /\
                kills c' = (kills c + n)%nat /\
                closers c' = (closers c + n)%nat /\
                exited c' = exited c).
  { induction n as [| n IH].
    - simpl. rewrite ?Nat.add_0_r. repeat split; try done.
      exists c. by rewrite ?Nat.add_0_r.
    - destruct IH as (Hrec' & Hd & Hcd & Hslot' & c' & Hc' & Hk & Hcl & Hex).
      change (stopTimes (S n) s) with (stop (stopTimes n s)).
      remember (stopTimes n s) as t eqn:Ht.
      destruct Hrec as [r Hr]. rewrite Hr in Hrec'.
      unfold stop, closeChildProcess. cbv zeta. simpl.
      rewrite Hslot'. simpl. rewrite Hrec'. simpl.
      repeat split; try done; try lia; [congruence |].
      rewrite list_lookup_alter_eq, Hc'. simpl.
      eexists. split; [reflexivity |]. simpl. repeat split; try done; lia. }
  tauto.
Qed.

Lemma stop_is_repeated_in_full_witness :
  let s' := stopTimes 2 (start sampleConfig newMijiaTemp) in
  discarded s' = 2%nat /\
  closed s' = 0%nat /\
  gattProcess s' = Some 0%nat /\
  exists c',
    children s' !! 0%nat = Some c' /\
    kills c' = 2%nat /\
    closers c' = 2%nat /\
    exited c' = false.
Proof.
  apply (stop_is_repeated_in_full 2 (start sampleConfig newMijiaTemp) 0
           (newChild (start sampleConfig newMijiaTemp)));
    first [ by eexists | by vm_compute ].
Defined.

(** X8. What happens to a stopped session when the subprocess that [stop()]
    interrupted exits: the promise of [closeChildProcess()] is resolved
    and the slot cleared, but the exit listener runs as in any cycle.
    Code 0 or 130 puts health back to OK over INACTIVE; any other code
    (or none, when the signal killed the process) counts as a failure
    and schedules a retry of a session that was stopped. *)
Theorem exit_after_stop
    (s : Session) (p : pid) (c : ChildProcess) (code : option Z) :
  gattProcess s = Some p ->
  children s !! p = Some c ->
  exited c = false ->
  let s1 := stop s in
  let s2 := onExit p code s1 in
  state s1 = (INACTIVE, None) /\
  step s1 (ProcExit p code) = Some s2 /\
  gattProcess s2 = None /\
  closed s2 = (closed s + S (closers c))%nat /\
  timer s2 = None /\
  if isCleanExit code
  then state s2 = (OK, None) /\ retryCounter s2 = 0%nat /\ timeouts s2 = timeouts s
  else state s2 = (INACTIVE, None) /\ retryCounter s2 = S (retryCounter s) /\
       timeouts s2 = (timeouts s ++ [RETRY_TIMEOUT])%list.
Proof.
  intros Hslot Hc Hex. cbv zeta.
  assert (Hstop : state (stop s) = (INACTIVE, None) /\
                  children (stop s) = alter once_exit_and_kill p (children s) /\
                  closed (stop s) = closed s /\ timer (stop s) = None /\
                  retryCounter (stop s) = retryCounter s /\
                  timeouts (stop s) = timeouts s).
  { unfold stop, closeChildProcess. cbv zeta. simpl. rewrite Hslot. simpl.
    by destruct (record s). }
  destruct Hstop as (Hst & Hch & Hcd & Htm & Hr & Hto).
  assert (Hc1 : children (stop s) !! p = Some (once_exit_and_kill c)).
  { by rewrite Hch, list_lookup_alter_eq, Hc. }
  destruct (onExit_frame p code (stop s)) as (_ & _ & Htm2 & _ & _ & Hcd2).
  split; [exact Hst |].
  split; [apply step_ok; [by apply (enabled_ProcExit _ p (once_exit_and_kill c)) | done] |].
  split; [apply gattProcess_onExit |].
  split; [rewrite Hcd2, Hc1, Hcd; simpl; lia |].
  split; [by rewrite Htm2 |].
  destruct (isCleanExit code) eqn:Hcode.
  - destruct (onExit_clean p code (stop s) Hcode) as (-> & -> & ->). by rewrite Hto.
  - destruct (onExit_abnormal p code (stop s) Hcode) as (-> & -> & ->).
    by rewrite Hst, Hr, Hto.
Qed.

Lemma exit_after_stop_witness :
  let s1 := stop (start sampleConfig newMijiaTemp) in
  let s2 := onExit 0 None s1 in
  state s1 = (INACTIVE, None) /\
  step s1 (ProcExit 0 None) = Some s2 /\
  gattProcess s2 = None /\
  closed s2 = 1%nat /\
  timer s2 = None /\
  state s2 = (INACTIVE, None) /\ retryCounter s2 = 1%nat /\
  timeouts s2 = [RETRY_TIMEOUT].
Proof.
  apply (exit_after_stop (start sampleConfig newMijiaTemp) 0
           (newChild (start sampleConfig newMijiaTemp)) None);
    by vm_compute.
Defined.

End Cycles.

(* ================================================================== *)
(** * What a run cannot do *)

(** Case analysis on a turn of the loop, one goal per event. *)
Ltac turn_cases s e H :=
  unfold step in H; destruct (enabled s e) eqn:?Hen; [| discriminate H];
  destruct e as [| ?i | ?q | ?q ?code | ?q ?line ?now |]; simpl in H; simplify_eq.

Section Bounds.

Lemma timer_update s : timer (update s) = timer s.
Proof. destruct (update_cases s) as [-> | [msg ->]]; reflexivity. Qed.

Lemma timer_closeChildProcess s : timer (closeChildProcess s) = timer s.
Proof. unfold closeChildProcess. by destruct (gattProcess s). Qed.

Lemma timer_stop s : timer (stop s) = None.
Proof.
  unfold stop. cbv zeta.
  destruct (record (closeChildProcess (set_timer None s))); simpl;
    by rewrite timer_closeChildProcess.
Qed.

(** No callback but [start] sets the interval timer. *)
Lemma step_timer_none s e s' :
  step s e = Some s' -> timer s = None -> timer s' = None /\ e <> Tick.
Proof.
  intros H Htm. turn_cases s e H.
  - simpl in Hen. rewrite Htm in Hen. discriminate Hen.
  - by rewrite timer_update.
  - done.
  - destruct (onExit_frame q code s) as (_ & _ & -> & _). done.
  - unfold onLine in H. repeat case_match; simplify_eq; [done |].
    by rewrite timer_closeChildProcess.
  - split; [apply timer_stop | done].
Qed.

(** X9. After [stop()] the interval callback never runs again: whatever
    happens next, the timer stays cleared and no turn of the loop is a
    tick.  What can still call [update()] is a retry timeout. *)
Theorem no_tick_after_stop (s : Session) (es : list Event) (s' : Session) :
  run (stop s) es = Some s' ->
  timer s' = None /\ ~ In Tick es.
Proof.
  assert (H : forall es t t', timer t = None -> run t es = Some t' ->
                timer t' = None /\ ~ In Tick es).
  { clear. induction es as [| e es IH]; intros t t' Htm Hrun; simpl in Hrun.
    - simplify_eq. split; [done | by intros []].
    - destruct (step t e) as [t1 |] eqn:He; [| discriminate].
      destruct (step_timer_none t e t1 He Htm) as [Htm1 Hne].
      destruct (IH t1 t' Htm1 Hrun) as [Htm' Hno].
      split; [done |]. intros [Heq | Hin]; [by subst | done]. }
  intros Hrun. apply (H es (stop s) s'); [apply timer_stop | exact Hrun].
Qed.

Lemma no_tick_after_stop_witness :
  run (stop (start sampleConfig newMijiaTemp)) [ProcExit 0 None; Retry 0] =
    Some (update (set_timeouts [] (onExit 0 None (stop (start sampleConfig newMijiaTemp))))) /\
  timer (update (set_timeouts [] (onExit 0 None (stop (start sampleConfig newMijiaTemp))))) = None /\
  ~ In Tick [ProcExit 0 None; Retry 0].
Proof.
  split; [by vm_compute |].
  apply (no_tick_after_stop (start sampleConfig newMijiaTemp) [ProcExit 0 None; Retry 0]).
  by vm_compute.
Defined.

Lemma published_update s : published (update s) = published s.
Proof. destruct (update_cases s) as [-> | [msg ->]]; reflexivity. Qed.

Lemma step_published s e s' :
  step s e = Some s' ->
  published s' = published s \/
  exists p line now, e = Line p line now /\
    published s' = (published s ++ [decode line now])%list.
Proof.
  intros H. turn_cases s e H.
  - left. apply published_update.
  - left. by rewrite published_update.
  - by left.
  - left. by destruct (onExit_frame q code s) as (_ & _ & _ & -> & _).
  - unfold onLine in H. repeat case_match; simplify_eq; [by left |].
    right. exists q, line, now. split; [done |].
    by rewrite published_closeChildProcess.
  - left. unfold stop. cbv zeta.
    destruct (record (closeChildProcess (set_timer None s))); simpl;
      by rewrite published_closeChildProcess.
Qed.

(** X10. The record is written by the line handler and by nothing else, one
    reading at a time: over any run, what is published is what was
    published before followed by readings that are each the decoding of
    a line received during the run, at most one per line. *)
Theorem published_only_from_lines (s : Session) (es : list Event) (s' : Session) :
  run s es = Some s' ->
  exists more,
    published s' = (published s ++ more)%list /\
    (length more <= countLines es)%nat /\
    Forall (fun r => exists p line now, In (Line p line now) es /\ r = decode line now) more.
Proof.
  revert s. induction es as [| e es IH]; intros s Hrun; simpl in Hrun.
  - simplify_eq. exists []. rewrite app_nil_r. repeat split; [simpl; lia | constructor].
  - destruct (step s e) as [s1 |] eqn:He; [| discriminate].
    destruct (IH s1 Hrun) as (more & Hpub & Hlen & Hall).
    assert (Hall' : Forall (fun r => exists p line now,
                              In (Line p line now) (e :: es) /\ r = decode line now) more).
    { eapply Forall_impl; [exact Hall |].
      intros r (p & line & now & Hin & ->). exists p, line, now. split; [by right | done]. }
    unfold countLines in *. rewrite filter_cons.
    destruct (step_published s e s1 He) as [Heq | (p & line & now & -> & Heq)].
    + exists more. rewrite Hpub, Heq. repeat split; [| done].
      case_decide; simpl; lia.
    + exists (decode line now :: more). rewrite Hpub, Heq, <- app_assoc.
      repeat split.
      * rewrite decide_True by done. simpl. lia.
      * constructor; [| done]. exists p, line, now. split; [by left | done].
Qed.

Lemma published_only_from_lines_witness :
  exists more,
    published (default newMijiaTemp
                 (run (start sampleConfig newMijiaTemp) (Tick :: deliver 0 sampleOutput))) =
      (published (start sampleConfig newMijiaTemp) ++ more)%list /\
    (length more <= countLines (Tick :: deliver 0 sampleOutput))%nat /\
    Forall (fun r => exists p line now,
              In (Line p line now) (Tick :: deliver 0 sampleOutput) /\ r = decode line now)
           more.
Proof.
  apply (published_only_from_lines (start sampleConfig newMijiaTemp)
           (Tick :: deliver 0 sampleOutput)).
  by vm_compute.
Defined.

Lemma length_children_closeChildProcess s :
  length (children (closeChildProcess s)) = length (children s).
Proof.
  unfold closeChildProcess. destruct (gattProcess s); simpl; [apply length_alter | done].
Qed.

Lemma step_children s e s' :
  step s e = Some s' ->
  length (children s') = length (children s) \/
  (callsUpdate e = true /\ length (children s') = S (length (children s))).
Proof.
  intros H. turn_cases s e H.
  - destruct (update_cases s) as [-> | [msg ->]]; [by left | right].
    split; [done |]. simpl. rewrite length_app. simpl. lia.
  - destruct (update_cases (set_timeouts (delete i (timeouts s)) s)) as [-> | [msg ->]];
      [by left | right].
    split; [done |]. simpl. rewrite length_app. simpl. lia.
  - left. simpl. apply length_alter.
  - left. destruct (onExit_frame q code s) as (-> & _). by rewrite !length_alter.
  - left. unfold onLine in H. repeat case_match; simplify_eq.
    + simpl. apply length_alter.
    + by rewrite length_children_closeChildProcess.
  - left. unfold stop. cbv zeta.
    destruct (record (closeChildProcess (set_timer None s))); simpl;
      by rewrite length_children_closeChildProcess.
Qed.

(** X11. Subprocesses are spawned by [update()] only, at most one per call:
    over any run the number of processes spawned so far never shrinks
    and grows by no more than the number of ticks and retry timeouts. *)
Theorem spawns_bounded_by_updates (s : Session) (es : list Event) (s' : Session) :
  run s es = Some s' ->
  (length (children s) <= length (children s') <= length (children s) + countUpdates es)%nat.
Proof.
  revert s. induction es as [| e es IH]; intros s Hrun; simpl in Hrun.
  - simplify_eq. unfold countUpdates. simpl. lia.
  - destruct (step s e) as [s1 |] eqn:He; [| discriminate].
    specialize (IH s1 Hrun). unfold countUpdates in *. rewrite filter_cons.
    destruct (step_children s e s1 He) as [Heq | [Hupd Heq]].
    + case_decide; simpl; lia.
    + rewrite decide_True by done. simpl. lia.
Qed.

Lemma spawns_bounded_by_updates_witness :
  (length (children (start sampleConfig newMijiaTemp))
   <= length (children afterTenFailures)
   <= length (children (start sampleConfig newMijiaTemp)) + countUpdates tenFailures)%nat.
Proof.
  apply (spawns_bounded_by_updates (start sampleConfig newMijiaTemp) tenFailures).
  by vm_compute.
Defined.

End Bounds.

(* ================================================================== *)
(** * Invariants of a started session *)

Section Invariants.

Variable config : MijiaTempConfig.t.

Lemma step_configured s e s' :
  step s e = Some s' -> configured config s -> configured config s'.
Proof.
  intros H Hcfg.
  assert (Hupd : forall t, configured config t -> configured config (update t)).
  { intros t Ht. by destruct (update_cases t) as [-> | [msg ->]]. }
  assert (Hclose : forall t, configured config t -> configured config (closeChildProcess t)).
  { intros t Ht. unfold closeChildProcess. by destruct (gattProcess t). }
  turn_cases s e H.
  - by apply Hupd.
  - by apply Hupd.
  - done.
  - unfold onExit. cbv zeta. by repeat case_match.
  - unfold onLine in H. repeat case_match; simplify_eq; [done |]. by apply Hclose.
  - unfold stop. cbv zeta.
    destruct (record (closeChildProcess (set_timer None s))); by apply Hclose.
Qed.

Lemma childOk_newChild s : configured config s -> childOk config (newChild s).
Proof.
  intros (Hmac & Htool & _). unfold childOk, newChild. simpl.
  rewrite Hmac, Htool. repeat split; try lia; discriminate.
Qed.

Lemma children_ok_update s :
  configured config s ->
  Forall (childOk config) (children s) -> Forall (childOk config) (children (update s)).
Proof.
  intros Hcfg Hall. destruct (update_cases s) as [-> | [msg ->]]; [done |].
  simpl. apply Forall_app_2; [done |].
  apply Forall_singleton. by apply (childOk_newChild (setState BUSY msg s)).
Qed.

Lemma children_ok_closeChildProcess s :
  slotIsLatestLive s ->
  Forall (childOk config) (children s) ->
  Forall (childOk config) (children (closeChildProcess s)).
Proof.
  intros Hslot Hall. unfold closeChildProcess.
  destruct (gattProcess s) as [g |] eqn:Hg; [| done].
  destruct (Hslot g Hg) as (_ & c & Hc & Hex).
  simpl. apply Forall_alter; [done |].
  intros x Hx (Hf & Ha & Hl & _). simplify_eq.
  split; [done |]. split; [done |]. split; [done |].
  simpl. intros Hx'. congruence.
Qed.

Lemma step_children_ok s e s' :
  step s e = Some s' ->
  configured config s -> slotIsLatestLive s ->
  Forall (childOk config) (children s) -> Forall (childOk config) (children s').
Proof.
  intros H Hcfg Hslot Hall. turn_cases s e H.
  - by apply children_ok_update.
  - by apply (children_ok_update (set_timeouts (delete i (timeouts s)) s)).
  - simpl. apply Forall_alter; [done |].
    intros x _ (Hf & Ha & Hl & Hx). repeat split; try done. by apply Hx.
  - destruct (onExit_frame q code s) as (-> & _).
    apply Forall_alter.
    + apply Forall_alter; [done |].
      intros x _ (Hf & Ha & Hl & Hx). repeat split; try done. by apply Hx.
    + intros x Hx (Hf & Ha & Hl & _).
      rewrite list_lookup_alter_eq in Hx.
      destruct (children s !! q) as [c |]; simpl in Hx; [| discriminate].
      simplify_eq. by repeat split.
  - unfold onLine in H. destruct (Nat.eqb_spec (lineCounterOf q s) 0) as [Hz | Hnz].
    + simplify_eq. simpl. apply Forall_alter; [done |].
      intros x Hx (Hf & Ha & Hl & Hxx). unfold lineCounterOf in Hz.
      rewrite Hx in Hz. simpl in Hz.
      split; [done |]. split; [done |]. split; [simpl; lia | exact Hxx].
    + destruct (record s); simplify_eq.
      by apply (children_ok_closeChildProcess
                  (set_published (published s ++ [decode line now]) s)).
  - unfold stop. cbv zeta.
    assert (Hc : Forall (childOk config) (children (closeChildProcess (set_timer None s)))).
    { by apply children_ok_closeChildProcess. }
    by destruct (record (closeChildProcess (set_timer None s))).
Qed.

(** X12. The settings derived by [start] are never changed afterwards, and
    every process a started session has spawned, in whatever state it is
    reached, runs the configured tool on the configured address, has
    seen its first line at most once ([lineCounter] is 0 or 1), and once
    exited has its readline interface closed and no promise of
    [closeChildProcess()] left waiting on it. *)
Theorem started_session_invariants (s : Session) :
  reachable config s ->
  configured config s /\
  record s = Some (MijiaTempConfig.recordName config) /\
  forall p c, children s !! p = Some c -> childOk config c.
Proof.
  intros Hreach.
  split; [| split; [by apply reachable_record |]].
  - destruct Hreach as [es Hrun].
    apply (run_invariant (configured config) step_configured es _ _ Hrun).
    by repeat split.
  - apply Forall_lookup.
    assert (H : configured config s /\ slotIsLatestLive s /\
                Forall (childOk config) (children s)); [| tauto].
    destruct Hreach as [es Hrun].
    apply (run_invariant
             (fun t => configured config t /\ slotIsLatestLive t /\
                       Forall (childOk config) (children t))) with (es := es)
             (s := start config newMijiaTemp); [| exact Hrun |].
    + intros t e t' Hstep (Hcfg & Hslot & Hall).
      split; [by apply (step_configured t e) |].
      split; [by apply (step_slot t e) |].
      by apply (step_children_ok t e).
    + split; [done |]. split; [apply reachable_slot with (config := config); by exists [] |].
      apply Forall_singleton. repeat split; simpl; try done; try lia; discriminate.
Qed.

End Invariants.

Lemma started_session_invariants_witness :
  reachable sampleConfig afterTenFailures /\
  configured sampleConfig afterTenFailures /\
  record afterTenFailures = Some (MijiaTempConfig.recordName sampleConfig) /\
  forall p c, children afterTenFailures !! p = Some c -> childOk sampleConfig c.
Proof.
  assert (Hreach : reachable sampleConfig afterTenFailures).
  { exists tenFailures. by vm_compute. }
  split; [exact Hreach |].
  apply (started_session_invariants sampleConfig afterTenFailures Hreach).
Defined.

(* ================================================================== *)
(** * Data lines *)

Section DataLines.













End DataLines.

(* ================================================================== *)
(** * What starts the next attempt *)

Section NextAttempt.

Lemma timeouts_update s : timeouts (update s) = timeouts s.
Proof. destruct (update_cases s) as [-> | [msg ->]]; reflexivity. Qed.

Lemma timeouts_closeChildProcess s : timeouts (closeChildProcess s) = timeouts s.
Proof. unfold closeChildProcess. by destruct (gattProcess s). Qed.

(** Only the exit listener schedules a timeout. *)
Lemma step_no_timeout s e s' :
  step s e = Some s' ->
  (forall q code, e <> ProcExit q code) ->
  timeouts s = [] -> timeouts s' = [].
Proof.
  intros H Hne Hto. turn_cases s e H.
  - by rewrite timeouts_update.
  - simpl in Hen. rewrite Hto in Hen. discriminate Hen.
  - done.
  - by destruct (Hne q code).
  - unfold onLine in H. repeat case_match; simplify_eq; [done |].
    by rewrite timeouts_closeChildProcess.
  - rewrite <- Hto. unfold stop. cbv zeta.
    destruct (record (closeChildProcess (set_timer None s))); simpl;
      by rewrite timeouts_closeChildProcess.
Qed.

(** With no retry pending, and until a process exits, nothing but a
    tick of the interval spawns. *)
Lemma no_pending_attempts_at_tick s :
  timeouts s = [] -> attemptsOnlyAtTickUntilExit s.
Proof.
  intros Hto es. revert s Hto.
  induction es as [| e0 es IH]; intros s Hto s1 e s2 Hrun Hno Hstep Hgrow;
    simpl in Hrun.
  - simplify_eq.
    destruct (step_children s1 e s2 Hstep) as [Heq | [Hupd _]]; [lia |].
    destruct e as [| i | | | |]; try discriminate Hupd; [reflexivity |].
    unfold step in Hstep. simpl in Hstep. rewrite Hto in Hstep. discriminate Hstep.
  - destruct (step s e0) as [s0 |] eqn:He0; [| discriminate].
    apply (IH s0) with (s1 := s1) (s2 := s2); try done.
    + apply (step_no_timeout s e0 s0 He0); [| exact Hto].
      intros q code ->. apply (Hno q code). by left.
    + intros q code Hin. apply (Hno q code). by right.
Qed.

(** C3, amended. Entered with [retryCounter >= MAX_RETRY], [update()]
    sets health to PROBLEM with the message "unable to connect to
    device", resets the counter to 0 and returns: no process is spawned,
    the slot and the listeners are as before, no timeout is scheduled and
    the interval timer is untouched.  When no retry timeout is pending on
    entry, then, until some subprocess exits, the next attempt is started
    by a tick of the interval and by nothing else. *)
Theorem C3_max_retry_gives_up (s : Session) :
  (MAX_RETRY <= retryCounter s)%nat ->
  let s' := update s in
  state s' = (PROBLEM, Some "unable to connect to device") /\
  retryCounter s' = 0%nat /\
  children s' = children s /\
  gattProcess s' = gattProcess s /\
  timeouts s' = timeouts s /\
  timer s' = timer s /\
  published s' = published s /\
  (timeouts s = [] -> attemptsOnlyAtTickUntilExit s').
Proof.
  intros Hmax. cbv zeta.
  assert (Hupd : update s =
                 set_retryCounter 0 (setState PROBLEM (Some "unable to connect to device") s)).
  { unfold update, MAX_RETRY in *.
    destruct (Nat.eqb_spec (retryCounter s) 0) as [Hz | _]; [lia |].
    destruct (Nat.leb_spec 10 (retryCounter s)) as [_ | Hlt]; [done | lia]. }
  rewrite Hupd. do 7 (split; [reflexivity |]).
  intros Hto. by apply no_pending_attempts_at_tick.
Qed.

Lemma C3_witness :
  (MAX_RETRY <= retryCounter tenthRetry)%nat /\
  timeouts tenthRetry = [] /\
  let s' := update tenthRetry in
  state s' = (PROBLEM, Some "unable to connect to device") /\
  retryCounter s' = 0%nat /\
  children s' = children tenthRetry /\
  gattProcess s' = gattProcess tenthRetry /\
  timeouts s' = timeouts tenthRetry /\
  timer s' = timer tenthRetry /\
  published s' = published tenthRetry /\
  (timeouts tenthRetry = [] -> attemptsOnlyAtTickUntilExit s').
Proof.
  split; [vm_compute; lia |]. split; [by vm_compute |].
  apply (C3_max_retry_gives_up tenthRetry). vm_compute. lia.
Defined.

(** C3, as the claim states it, fails: the tenth failure leaves its
    retry pending; when the tick of the interval comes first, [update()]
    gives up (PROBLEM, counter 0) and the pending retry then spawns an
    eleventh process with no tick in between. *)
Lemma C3_counterexample :
  (run (start sampleConfig newMijiaTemp) (tenFailures ++ [Tick])
     = Some (update afterTenFailures) /\
   retryCounter afterTenFailures = MAX_RETRY /\
   state (update afterTenFailures) = (PROBLEM, Some "unable to connect to device") /\
   exists s2,
     step (update afterTenFailures) (Retry 0) = Some s2 /\
     length (children (update afterTenFailures)) = 10%nat /\
     length (children s2) = 11%nat) /\
  ~ (forall s, reachable sampleConfig s -> (MAX_RETRY <= retryCounter s)%nat ->
               nextAttemptOnlyAtTick (update s)).
Proof.
  split.
  - split; [by vm_compute |]. split; [by vm_compute |]. split; [by vm_compute |].
    eexists. by vm_compute.
  - intros H.
    assert (Hnext : nextAttemptOnlyAtTick (update afterTenFailures)).
    { apply H; [exists tenFailures; by vm_compute | vm_compute; lia]. }
    assert (Habs : Retry 0 = Tick).
    { apply (Hnext [] (update afterTenFailures) (Retry 0)
               (update (set_timeouts [] (update afterTenFailures))));
        [done | done | by vm_compute | vm_compute; lia]. }
    discriminate Habs.
Qed.

(** C6, amended. The ['error'] listener clears the slot and sets health
    to ERROR with the message "unable to launch gatttool process"; it
    leaves the retry counter, the pending timeouts and the interval timer
    as they were and spawns nothing.  When no retry timeout is pending as
    the error arrives, then, until some subprocess exits, the next poll
    cycle is started by a tick of the interval and by nothing else. *)
Theorem C6_spawn_failure_schedules_nothing (p : pid) (s : Session) :
  let s' := onError p s in
  gattProcess s' = None /\
  state s' = (ERROR, Some "unable to launch gatttool process") /\
  retryCounter s' = retryCounter s /\
  timeouts s' = timeouts s /\
  timer s' = timer s /\
  length (children s') = length (children s) /\
  (timeouts s = [] -> attemptsOnlyAtTickUntilExit s').
Proof.
  cbv zeta. do 5 (split; [reflexivity |]).
  split; [apply length_alter |].
  intros Hto. by apply no_pending_attempts_at_tick.
Qed.

Lemma C6_witness :
  timeouts (start sampleConfig newMijiaTemp) = [] /\
  let s' := onError 0 (start sampleConfig newMijiaTemp) in
  gattProcess s' = None /\
  state s' = (ERROR, Some "unable to launch gatttool process") /\
  retryCounter s' = retryCounter (start sampleConfig newMijiaTemp) /\
  timeouts s' = timeouts (start sampleConfig newMijiaTemp) /\
  timer s' = timer (start sampleConfig newMijiaTemp) /\
  length (children s') = length (children (start sampleConfig newMijiaTemp)) /\
  (timeouts (start sampleConfig newMijiaTemp) = [] -> attemptsOnlyAtTickUntilExit s').
Proof.
  split; [by vm_compute |].
  apply (C6_spawn_failure_schedules_nothing 0 (start sampleConfig newMijiaTemp)).
Defined.

(** C6, as the claim states it, fails: the first process has failed and
    its retry is pending when a tick spawns the second; the second fails
    to launch, health goes to ERROR, and the pending retry then spawns a
    third process with no tick in between. *)
Lemma C6_counterexample :
  (run (start sampleConfig newMijiaTemp) [ProcExit 0 (Some 1); Tick] = Some pendingRetry /\
   enabled pendingRetry (ProcError 1) = true /\
   state (onError 1 pendingRetry) = (ERROR, Some "unable to launch gatttool process") /\
   exists s2,
     step (onError 1 pendingRetry) (Retry 0) = Some s2 /\
     length (children (onError 1 pendingRetry)) = 2%nat /\
     length (children s2) = 3%nat) /\
  ~ (forall s p, reachable sampleConfig s -> enabled s (ProcError p) = true ->
                 nextAttemptOnlyAtTick (onError p s)).
Proof.
  split.
  - split; [by vm_compute |]. split; [by vm_compute |]. split; [by vm_compute |].
    eexists. by vm_compute.
  - intros H.
    assert (Hnext : nextAttemptOnlyAtTick (onError 1 pendingRetry)).
    { apply H; [exists [ProcExit 0 (Some 1); Tick]; by vm_compute | by vm_compute]. }
    assert (Habs : Retry 0 = Tick).
    { apply (Hnext [] (onError 1 pendingRetry) (Retry 0)
               (update (set_timeouts [] (onError 1 pendingRetry))));
        [done | done | by vm_compute | vm_compute; lia]. }
    discriminate Habs.
Qed.

End NextAttempt.

(* ================================================================== *)
(** * Lines that are malformed, lines of a process not in the slot *)

Section EveryDataLine.

Lemma toNumber_notHex t : notHex t -> toNumber ("0x" ++ t) = NaN.
Proof.
  rewrite toNumber_0x. intros [-> | Hnone]; [reflexivity |].
  destruct (trimEnd t) as [| d ds]; [reflexivity |]. by rewrite Hnone.
Qed.

Lemma notHex_undefined t : notHex ("undefined" ++ t).
Proof.
  right.
  change ("undefined" ++ t) with (String "u" ("ndefined" ++ t)).
  by rewrite trimEnd_cons.
Qed.

Lemma closeChildProcess_frame s :
  retryCounter (closeChildProcess s) = retryCounter s /\
  state (closeChildProcess s) = state s /\
  gattProcess (closeChildProcess s) = gattProcess s /\
  timeouts (closeChildProcess s) = timeouts s /\
  timer (closeChildProcess s) = timer s /\
  closed (closeChildProcess s)
    = (closed s + (if decide (gattProcess s = None) then 1 else 0))%nat.
Proof.
  unfold closeChildProcess.
  destruct (gattProcess s) eqn:Hg; simpl; rewrite ?Hg;
    repeat split; try done; repeat case_decide; try done; lia.
Qed.

(** Data lines of [p], whatever is in the slot: every one is published,
    and every one calls [closeChildProcess()], whose SIGINT goes to the
    process in the slot. *)
Lemma run_data_lines_any p q lines :
  forall s c cq,
    is_Some (record s) ->
    children s !! p = Some c ->
    lineCounter c <> 0%nat -> inputOpen c = true -> exited c = false ->
    children s !! q = Some cq ->
    exists s' cq',
      run s (deliver p lines) = Some s' /\
      published s' = (published s ++ map (fun ln => decode (fst ln) (snd ln)) lines)%list /\
      gattProcess s' = gattProcess s /\
      closed s' = (closed s + (if decide (gattProcess s = None) then length lines else 0))%nat /\
      children s' !! q = Some cq' /\
      kills cq' = (kills cq + (if decide (gattProcess s = Some q) then length lines else 0))%nat.
Proof.
  induction lines as [| [line now] lines IH]; intros s c cq Hrec Hc Hlc Hin Hex Hq.
  - exists s, cq. simpl. rewrite app_nil_r.
    repeat split; try done; repeat case_decide; lia.
  - set (s1 := set_published (published s ++ [decode line now]) s).
    destruct (lookup_closeChildProcess p s1 c Hc) as (c1 & Hc1 & Hl1 & Hin1 & Hex1 & _).
    destruct (lookup_closeChildProcess q s1 cq Hq) as (cq1 & Hq1 & _ & _ & _ & Hk1).
    destruct (closeChildProcess_frame s1) as (_ & _ & Hslot1 & _ & _ & Hcd1).
    destruct (IH (closeChildProcess s1) c1 cq1) as
      (s' & cq' & Hrun & Hpub & Hslot' & Hcd' & Hq' & Hk'); try congruence.
    { by rewrite record_closeChildProcess. }
    exists s', cq'. split.
    { simpl deliver. rewrite (run_cons s _ (closeChildProcess s1)); [exact Hrun |].
      apply step_ok.
      - simpl. rewrite Hc. simpl. by rewrite Hin, Hex.
      - simpl. apply onLine_data; [exact Hrec |].
        unfold pastFirstLine, lineCounterOf. by rewrite Hc. }
    rewrite Hslot1 in Hslot', Hcd', Hk'. simpl in Hslot', Hcd', Hk', Hcd1, Hk1.
    rewrite Hpub, published_closeChildProcess. simpl.
    rewrite <- app_assoc.
    repeat split; try done; repeat case_decide; simpl in *; lia.
Qed.

(** C10, amended. Publishes are not capped at one per cycle: when a
    running subprocess delivers its first line and then [n] more before
    it exits, every one of the [n] lines is decoded and published: [n]
    calls of [record.set].  Every one also calls [closeChildProcess()],
    whose SIGINT goes to the subprocess in the slot: [n] requests to the
    printing subprocess when it is the one in the slot, [n] requests to
    another subprocess when that one is, and none at all, the promise
    resolving at once, when the slot is empty. *)
Theorem C10_every_data_line_publishes
    (p : pid) (s : Session) (c : ChildProcess)
    (first : string * string) (lines : list (string * string)) :
  is_Some (record s) ->
  children s !! p = Some c ->
  lineCounter c = 0%nat -> inputOpen c = true -> exited c = false ->
  exists s',
    run s (deliver p (first :: lines)) = Some s' /\
    published s' = (published s ++ map (fun ln => decode (fst ln) (snd ln)) lines)%list /\
    length (published s') = (length (published s) + length lines)%nat /\
    gattProcess s' = gattProcess s /\
    closed s' = (closed s + (if decide (gattProcess s = None) then length lines else 0))%nat /\
    forall q cq,
      children s !! q = Some cq ->
      exists cq',
        children s' !! q = Some cq' /\
        kills cq' = (kills cq + (if decide (gattProcess s = Some q) then length lines else 0))%nat.
Proof.
  intros Hrec Hc Hlc Hin Hex.
  set (s0 := on_child bump_lineCounter p s).
  assert (Hc0 : children s0 !! p = Some (bump_lineCounter c)).
  { unfold s0. by rewrite lookup_on_child, decide_True, Hc. }
  assert (Hfirst : step s (Line p (fst first) (snd first)) = Some s0).
  { apply step_ok.
    - simpl. rewrite Hc. simpl. by rewrite Hin, Hex.
    - simpl. unfold onLine, lineCounterOf. rewrite Hc. simpl. by rewrite Hlc. }
  assert (Hall : forall q cq, children s !! q = Some cq ->
            exists s' cq',
              run s0 (deliver p lines) = Some s' /\
              published s' = (published s ++ map (fun ln => decode (fst ln) (snd ln)) lines)%list /\
              gattProcess s' = gattProcess s /\
              closed s' = (closed s + (if decide (gattProcess s = None) then length lines else 0))%nat /\
              children s' !! q = Some cq' /\
              kills cq' = (kills cq + (if decide (gattProcess s = Some q) then length lines else 0))%nat).
  { intros q cq Hq.
    assert (Hq0 : exists cq0, children s0 !! q = Some cq0 /\ kills cq0 = kills cq).
    { unfold s0. rewrite lookup_on_child, Hq. case_decide; simpl; eauto. }
    destruct Hq0 as (cq0 & Hq0 & Hk0).
    destruct (run_data_lines_any p q lines s0 (bump_lineCounter c) cq0) as
      (s' & cq' & Hrun & Hpub & Hslot & Hcd & Hq' & Hk'); try done.
    exists s', cq'. rewrite Hk0 in Hk'. by repeat split. }
  destruct (Hall p c Hc) as (s' & _ & Hrun & Hpub & Hslot & Hcd & _).
  exists s'. split.
  { simpl deliver. by rewrite (run_cons s _ s0 _ Hfirst). }
  split; [exact Hpub |].
  split; [rewrite Hpub, length_app, length_map; reflexivity |].
  split; [exact Hslot |]. split; [exact Hcd |].
  intros q cq Hq. destruct (Hall q cq Hq) as (s'' & cq' & Hrun' & _ & _ & _ & Hq' & Hk').
  rewrite Hrun in Hrun'. simplify_eq. eauto.
Qed.

Lemma C10_witness :
  exists s',
    run (start sampleConfig newMijiaTemp) (deliver 0 sampleOutput) = Some s' /\
    published s' =
      [mkReading (Num 3.98) (Num (inject_Z 60)) "2019-02-03T10:00:01.000Z";
       mkReading (Num 4.00) (Num (inject_Z 59)) "2019-02-03T10:00:02.000Z"] /\
    length (published s') = 2%nat /\
    gattProcess s' = Some 0%nat /\
    closed s' = 0%nat /\
    forall q cq,
      children (start sampleConfig newMijiaTemp) !! q = Some cq ->
      exists cq',
        children s' !! q = Some cq' /\
        kills cq' = (kills cq + (if decide (Some 0%nat = Some q) then 2 else 0))%nat.
Proof.
  apply (C10_every_data_line_publishes 0 (start sampleConfig newMijiaTemp)
           (newChild (start sampleConfig newMijiaTemp))
           ("Characteristic value was written successfully", "2019-02-03T10:00:00.000Z")
           sampleReadings);
    first [ by eexists | by vm_compute ].
Defined.

(** C10, as the claim states it, fails: in a reachable state where the
    slot is empty while the first subprocess still runs, two data lines
    of that subprocess give two publishes and no SIGINT to any process. *)
Lemma C10_counterexample :
  (reachable sampleConfig staleSlot /\
   pastFirstLine 0 staleSlot /\
   gattProcess staleSlot = None /\
   exists s',
     run staleSlot (deliver 0 sampleReadings) = Some s' /\
     length (published s') = 2%nat /\
     Forall (fun c => kills c = 0%nat) (children s')) /\
  ~ ownTerminationRequests sampleConfig.
Proof.
  assert (Hreach : reachable sampleConfig staleSlot).
  { exists [Tick; Line 0 "" ""; ProcExit 1 (Some 1)]. by vm_compute. }
  split.
  - split; [exact Hreach |]. split; [vm_compute; lia |]. split; [by vm_compute |].
    eexists. split; [by vm_compute |]. split; [by vm_compute |].
    by repeat constructor.
  - intros H.
    assert (Habs : 0%nat = (0 + 2)%nat).
    { apply (H staleSlot 0%nat (bump_lineCounter (newChild (start sampleConfig newMijiaTemp)))
               sampleReadings
               (default newMijiaTemp (run staleSlot (deliver 0 sampleReadings)))
               (bump_lineCounter (newChild (start sampleConfig newMijiaTemp))));
        [exact Hreach | by vm_compute | vm_compute; lia | by vm_compute | by vm_compute]. }
    discriminate Habs.
Qed.

(** What a data line does, whatever it holds. *)
Lemma decode_NaN line now :
  ((length (tokens line) < 3)%nat -> humidity (decode line now) = NaN) /\
  ((length (tokens line) < 2)%nat -> temperature (decode line now) = NaN) /\
  (forall t2, tokens line !! 2%nat = Some t2 -> notHex t2 ->
              humidity (decode line now) = NaN) /\
  (forall t0 t1, tokens line !! 0%nat = Some t0 -> tokens line !! 1%nat = Some t1 ->
                 notHex (t1 ++ t0) -> temperature (decode line now) = NaN).
Proof.
  unfold decode. cbv zeta. simpl temperature. simpl humidity.
  split; [| split; [| split]].
  - intros H. rewrite (proj2 (lookup_ge_None (tokens line) 2)) by lia. reflexivity.
  - intros H. rewrite (proj2 (lookup_ge_None (tokens line) 1)) by lia.
    simpl subst.
    by rewrite (toNumber_notHex ("undefined" ++ subst (tokens line !! 0%nat))
                  (notHex_undefined _)).
  - intros t2 -> Hn. simpl subst. by apply toNumber_notHex.
  - intros t0 t1 -> -> Hn. simpl subst. by rewrite (toNumber_notHex _ Hn).
Qed.

(** C9, amended. No data line makes the line handler throw, a malformed
    one included, but a malformed line is not skipped: it is handled
    like any data line.  What it decodes to is published, with [NaN] for
    the humidity when the third token is missing or not hexadecimal and
    for the temperature when the second is missing or the first two are
    not hexadecimal, and [closeChildProcess()] sends SIGINT to the
    subprocess in the slot.  The retry counter, health, slot and timers
    are left alone, the listeners of the process stay attached, and what
    a later line publishes depends on that line only. *)
Theorem C9_malformed_line_is_published_not_skipped
    (config : MijiaTempConfig.t) (s : Session) (p : pid) (line now : string) :
  reachable config s ->
  enabled s (Line p line now) = true ->
  pastFirstLine p s ->
  exists s',
    onLine p line now s = Normal s' /\
    published s' = (published s ++ [decode line now])%list /\
    ((length (tokens line) < 3)%nat -> humidity (decode line now) = NaN) /\
    ((length (tokens line) < 2)%nat -> temperature (decode line now) = NaN) /\
    (forall t2, tokens line !! 2%nat = Some t2 -> notHex t2 ->
                humidity (decode line now) = NaN) /\
    (forall t0 t1, tokens line !! 0%nat = Some t0 -> tokens line !! 1%nat = Some t1 ->
                   notHex (t1 ++ t0) -> temperature (decode line now) = NaN) /\
    (forall g cg, gattProcess s = Some g -> children s !! g = Some cg ->
                  children s' !! g = Some (once_exit_and_kill cg)) /\
    (gattProcess s = None -> children s' = children s /\ closed s' = S (closed s)) /\
    (forall line' now', enabled s' (Line p line' now') = true) /\
    (forall code, enabled s' (ProcExit p code) = true) /\
    retryCounter s' = retryCounter s /\
    state s' = state s /\
    gattProcess s' = gattProcess s /\
    timeouts s' = timeouts s /\
    timer s' = timer s /\
    (forall line' now', exists s'',
        onLine p line' now' s' = Normal s'' /\
        published s'' = (published s' ++ [decode line' now'])%list).
Proof.
  intros Hreach Hen Hpast.
  pose proof (reachable_record _ _ Hreach) as Hrec.
  destruct (enabled_Line_inv _ _ _ _ Hen) as (c & Hc & Hin & Hex).
  destruct (decode_NaN line now) as (Hn1 & Hn2 & Hn3 & Hn4).
  set (s1 := set_published (published s ++ [decode line now]) s).
  destruct (lookup_closeChildProcess p s1 c Hc) as (c' & Hc' & Hl' & Hin' & Hex' & _).
  destruct (closeChildProcess_frame s1) as (Hr & Hst & Hslot & Hto & Htm & _).
  destruct (enabled_of_lookup _ _ _ Hc') as [HL HE]; [congruence | congruence |].
  exists (closeChildProcess s1).
  split; [apply onLine_data; [by rewrite Hrec | exact Hpast] |].
  split; [by rewrite published_closeChildProcess |].
  do 4 (split; [done |]).
  split.
  { intros g cg Hg Hcg. by destruct (closeChildProcess_slot g s1 cg Hg Hcg) as [_ ?]. }
  split.
  { intros Hnone. unfold closeChildProcess. simpl. by rewrite Hnone. }
  do 7 (split; [done |]).
  intros line' now'. eexists. split.
  - apply onLine_data; [rewrite record_closeChildProcess; simpl; by rewrite Hrec |].
    unfold pastFirstLine, lineCounterOf in *. rewrite Hc'. simpl.
    rewrite Hc in Hpast. simpl in Hpast. congruence.
  - by rewrite published_closeChildProcess.
Qed.

Lemma C9_witness :
  reachable sampleConfig afterHeader /\
  enabled afterHeader (Line 0 malformedLine sampleTime) = true /\
  pastFirstLine 0 afterHeader /\
  exists s',
    onLine 0 malformedLine sampleTime afterHeader = Normal s' /\
    published s' = (published afterHeader ++ [decode malformedLine sampleTime])%list /\
    ((length (tokens malformedLine) < 3)%nat -> humidity (decode malformedLine sampleTime) = NaN) /\
    ((length (tokens malformedLine) < 2)%nat ->
     temperature (decode malformedLine sampleTime) = NaN) /\
    (forall t2, tokens malformedLine !! 2%nat = Some t2 -> notHex t2 ->
                humidity (decode malformedLine sampleTime) = NaN) /\
    (forall t0 t1, tokens malformedLine !! 0%nat = Some t0 ->
                   tokens malformedLine !! 1%nat = Some t1 ->
                   notHex (t1 ++ t0) -> temperature (decode malformedLine sampleTime) = NaN) /\
    (forall g cg, gattProcess afterHeader = Some g -> children afterHeader !! g = Some cg ->
                  children s' !! g = Some (once_exit_and_kill cg)) /\
    (gattProcess afterHeader = None ->
     children s' = children afterHeader /\ closed s' = S (closed afterHeader)) /\
    (forall line' now', enabled s' (Line 0 line' now') = true) /\
    (forall code, enabled s' (ProcExit 0 code) = true) /\
    retryCounter s' = retryCounter afterHeader /\
    state s' = state afterHeader /\
    gattProcess s' = gattProcess afterHeader /\
    timeouts s' = timeouts afterHeader /\
    timer s' = timer afterHeader /\
    (forall line' now', exists s'',
        onLine 0 line' now' s' = Normal s'' /\
        published s'' = (published s' ++ [decode line' now'])%list).
Proof.
  assert (Hreach : reachable sampleConfig afterHeader).
  { exists [Line 0 "Characteristic value was written successfully" sampleTime].
    by vm_compute. }
  split; [exact Hreach |]. split; [by vm_compute |]. split; [vm_compute; lia |].
  apply (C9_malformed_line_is_published_not_skipped
           sampleConfig afterHeader 0 malformedLine sampleTime);
    [exact Hreach | by vm_compute | vm_compute; lia].
Defined.

(** C9, as the claim states it, fails: the failure of a malformed line
    does not stay with the line.  A line without the marker, arriving as
    a data line, is published as a reading of two [NaN]s over whatever
    the record held, and the subprocess is sent SIGINT. *)
Lemma C9_counterexample :
  (reachable sampleConfig afterHeader /\
   enabled afterHeader (Line 0 malformedLine sampleTime) = true /\
   pastFirstLine 0 afterHeader /\
   malformed malformedLine /\
   exists s' c',
     onLine 0 malformedLine sampleTime afterHeader = Normal s' /\
     published s' = [mkReading NaN NaN sampleTime] /\
     children s' !! 0%nat = Some c' /\ kills c' = 1%nat) /\
  ~ (forall s p line now,
       reachable sampleConfig s -> enabled s (Line p line now) = true ->
       pastFirstLine p s -> malformed line ->
       lineContained p line now s).
Proof.
  assert (Hreach : reachable sampleConfig afterHeader).
  { exists [Line 0 "Characteristic value was written successfully" sampleTime].
    by vm_compute. }
  assert (Hmal : malformed malformedLine) by (left; by vm_compute).
  split.
  - split; [exact Hreach |]. split; [by vm_compute |]. split; [vm_compute; lia |].
    split; [exact Hmal |].
    eexists. eexists. split; [by vm_compute |]. split; [by vm_compute |].
    split; by vm_compute.
  - intros H.
    destruct (H afterHeader 0%nat malformedLine sampleTime Hreach) as (s' & Hs' & Hpub & _);
      [by vm_compute | vm_compute; lia | exact Hmal |].
    vm_compute in Hs'. injection Hs' as <-. vm_compute in Hpub. discriminate Hpub.
Qed.

End EveryDataLine.
